(** * NASA_NEOs: the date-range check and the feed flattener of [main.py]

    The development embeds [NearEarthObjects.__init__] and
    [NearEarthObjects.get_neos_by_date_range] of [main.py], with the
    first request the script makes of them, and states, as theorems, the
    properties the specification lists for them and further properties
    read off the code.

    The libraries the method calls are embedded as far as it uses them:
    the date arithmetic, [strptime] and [strftime] of [datetime] after
    the library's own algorithms, and the [DataFrame] constructor and
    [concat] of pandas on the shapes the feed has. What pandas does on
    other shapes is a parameter ([Pandas.lib]); the clock and the
    network are parameters too ([Neo.world]).

    Conventions of the embedding.
    - A Python [str] is a Rocq [string]; only code points below 256 are
      represented, so the decimal digits of a date are the ASCII digits.
    - A Python [int] is a [Z].
    - A call that can raise returns a [result]: [Ok v] or [Raise e].
    - A cell of a frame holds the object it was built from. The storage
      type pandas picks for a column is not represented: in a column
      that also holds a float or a missing value pandas stores an [int]
      as a float and [None] as [NaN]. Booleans, strings and floats are
      kept as they are in every column; the theorems that state the
      values of cells are about these ([Helpers.plain]).
    - What the method prints, warns about or fetches is recorded, in
      order, in a list of [event]s. *)

From Stdlib Require Import ZArith List String Ascii Bool Lia DecimalString.
From Stdlib Require Import SpecFloat.
Import ListNotations.
Local Open Scope string_scope.
Local Open Scope Z_scope.

(** ** The proleptic Gregorian calendar of [datetime] *)

Module Calendar.

(** [_is_leap(year)] *)
Definition is_leap (year : Z) : bool :=
  (year mod 4 =? 0) && (negb (year mod 100 =? 0) || (year mod 400 =? 0)).

(** [_days_before_year(year)]: days before January 1st of [year]. *)
Definition days_before_year (year : Z) : Z :=
  let y := year - 1 in
  y * 365 + y / 4 - y / 100 + y / 400.

(** [_DAYS_IN_MONTH[month]] for [1 <= month <= 12]. *)
Definition DAYS_IN_MONTH (month : Z) : Z :=
  match month with
  | 1 => 31 | 2 => 28 | 3 => 31 | 4 => 30 | 5 => 31 | 6 => 30
  | 7 => 31 | 8 => 31 | 9 => 30 | 10 => 31 | 11 => 30 | 12 => 31
  | _ => -1
  end.

(** [_DAYS_BEFORE_MONTH[month]] for [1 <= month <= 12]. *)
Definition DAYS_BEFORE_MONTH (month : Z) : Z :=
  match month with
  | 1 => 0 | 2 => 31 | 3 => 59 | 4 => 90 | 5 => 120 | 6 => 151
  | 7 => 181 | 8 => 212 | 9 => 243 | 10 => 273 | 11 => 304 | 12 => 334
  | _ => -1
  end.

(** [_days_in_month(year, month)] *)
Definition days_in_month (year month : Z) : Z :=
  if (month =? 2) && is_leap year then 29 else DAYS_IN_MONTH month.

(** [_days_before_month(year, month)] *)
Definition days_before_month (year month : Z) : Z :=
  DAYS_BEFORE_MONTH month + (if (2 <? month) && is_leap year then 1 else 0).

Definition MINYEAR : Z := 1.
Definition MAXYEAR : Z := 9999.

(** [_MAXORDINAL = date(9999, 12, 31).toordinal()] *)
Definition MAXORDINAL : Z := 3652059.

(** A calendar date; a [datetime] produced by [strptime] with the
    format [%Y-%m-%d] has its time of day at midnight, so the date is all
    there is to it. *)
Record date : Type := mkdate { year : Z; month : Z; day : Z }.

(** The check the [date] constructor runs on its fields
    ([_check_date_fields]). *)
Definition check_date_fields (y m d : Z) : bool :=
  (MINYEAR <=? y) && (y <=? MAXYEAR) &&
  (1 <=? m) && (m <=? 12) &&
  (1 <=? d) && (d <=? days_in_month y m).

(** [_ymd2ord(year, month, day)]: January 1st of year 1 is day 1. *)
Definition ymd2ord (y m d : Z) : Z :=
  days_before_year y + days_before_month y m + d.

Definition toordinal (dt : date) : Z := ymd2ord (year dt) (month dt) (day dt).

Definition DI400Y : Z := 146097.
Definition DI100Y : Z := 36524.
Definition DI4Y : Z := 1461.

(** [_ord2ymd(n)] *)
Definition ord2ymd (n : Z) : date :=
  let n := n - 1 in
  let n400 := n / DI400Y in
  let n := n mod DI400Y in
  let year := n400 * 400 + 1 in
  let n100 := n / DI100Y in
  let n := n mod DI100Y in
  let n4 := n / DI4Y in
  let n := n mod DI4Y in
  let n1 := n / 365 in
  let n := n mod 365 in
  let year := year + (n100 * 100 + n4 * 4 + n1) in
  if (n1 =? 4) || (n100 =? 4) then mkdate (year - 1) 12 31
  else
    let leapyear := (n1 =? 3) && (negb (n4 =? 24) || (n100 =? 3)) in
    let month := Z.shiftr (n + 50) 5 in
    let preceding :=
      DAYS_BEFORE_MONTH month + (if (2 <? month) && leapyear then 1 else 0) in
    if n <? preceding then
      let month := month - 1 in
      let preceding :=
        preceding - (DAYS_IN_MONTH month
                     + (if (month =? 2) && leapyear then 1 else 0)) in
      mkdate year month (n - preceding + 1)
    else mkdate year month (n - preceding + 1).

(** [date.fromordinal] *)
Definition fromordinal (n : Z) : date := ord2ymd n.

(** [dt + timedelta(days=k)]: the sum is taken on ordinals and raises
    [OverflowError] (here [None]) outside [1 .. _MAXORDINAL]. *)
Definition add_days (dt : date) (k : Z) : option date :=
  let o := toordinal dt + k in
  if (0 <? o) && (o <=? MAXORDINAL) then Some (fromordinal o) else None.

(** [(a - b).days] for two midnights. *)
Definition diff_days (a b : date) : Z := toordinal a - toordinal b.

End Calendar.

(** ** [datetime.strptime] and [strftime] for the format [%Y-%m-%d] *)

Module Strptime.
Import Calendar.

Definition code (c : ascii) : Z := Z.of_N (N_of_ascii c).

(** [c] lies in the character class [[lo-hi]]. *)
Definition in_class (lo hi c : ascii) : bool :=
  (code lo <=? code c) && (code c <=? code hi).

(** [\d] *)
Definition is_digit (c : ascii) : bool := in_class "0" "9" c.

Definition digit_val (c : ascii) : Z := code c - 48.

(** The directive [%Y] is the regular expression [\d\d\d\d]. *)
Definition match_Y (s : string) : list (Z * string) :=
  match s with
  | String a (String b (String c (String d r))) =>
      if is_digit a && is_digit b && is_digit c && is_digit d
      then [(1000 * digit_val a + 100 * digit_val b
             + 10 * digit_val c + digit_val d, r)]
      else []
  | _ => []
  end.

(** One alternative made of a first character in [[a1-a2]] followed by a
    second in [[b1-b2]]; the value read is the two-digit number. *)
Definition alt2 (a1 a2 b1 b2 : ascii) (s : string) : list (Z * string) :=
  match s with
  | String a (String b r) =>
      if in_class a1 a2 a && in_class b1 b2 b
      then [(10 * digit_val a + digit_val b, r)] else []
  | _ => []
  end.

(** One alternative made of a single character in [[1-9]]. *)
Definition alt1 (s : string) : list (Z * string) :=
  match s with
  | String a r => if in_class "1" "9" a then [(digit_val a, r)] else []
  | _ => []
  end.

(** One alternative made of a space followed by a character in [[1-9]]
    ([int] accepts the leading space). *)
Definition alt_sp (s : string) : list (Z * string) :=
  match s with
  | String a (String b r) =>
      if Ascii.eqb a " " && in_class "1" "9" b
      then [(digit_val b, r)] else []
  | _ => []
  end.

(** [%m] is [1[0-2]|0[1-9]|[1-9]]: the ways to read a month at the head
    of [s], in the order the matcher tries them. *)
Definition match_m (s : string) : list (Z * string) :=
  alt2 "1" "1" "0" "2" s ++ alt2 "0" "0" "1" "9" s ++ alt1 s.

(** [%d] is [3[0-1]|[1-2]\d|0[1-9]|[1-9]| [1-9]]. *)
Definition match_d (s : string) : list (Z * string) :=
  alt2 "3" "3" "0" "1" s ++ alt2 "1" "2" "0" "9" s
  ++ alt2 "0" "0" "1" "9" s ++ alt1 s ++ alt_sp s.

(** The literal [-] of the format. *)
Definition match_dash (s : string) : list string :=
  match s with
  | String a r => if Ascii.eqb a "-" then [r] else []
  | _ => []
  end.

(** All the ways the compiled format matches a prefix of [s], in
    backtracking order; [re.match] takes the first. *)
Definition match_format (s : string) : list (Z * Z * Z * string) :=
  flat_map (fun '(y, r1) =>
    flat_map (fun r2 =>
      flat_map (fun '(m, r3) =>
        flat_map (fun r4 =>
          map (fun '(d, r5) => (y, m, d, r5)) (match_d r4))
          (match_dash r3))
        (match_m r2))
      (match_dash r1))
    (match_Y s).

(** [datetime.strptime(s, '%Y-%m-%d')]; [None] stands for the
    [ValueError] it raises: no match, unconverted data after the match,
    or fields that are not a date. *)
Definition strptime (s : string) : option date :=
  match match_format s with
  | (y, m, d, rest) :: _ =>
      if String.eqb rest "" then
        if check_date_fields y m d then Some (mkdate y m d) else None
      else None
  | [] => None
  end.

Definition digit_char (n : Z) : ascii := ascii_of_N (Z.to_N (48 + n mod 10)).

Definition pad2 (n : Z) : string :=
  String (digit_char (n / 10)) (String (digit_char n) EmptyString).

(** [%Y] as CPython 3.11 prints it through the C library on Linux: the
    year in decimal, without leading zeros, so that years before 1000
    come out on fewer than four digits. *)
Definition year_digits (y : Z) : string := NilZero.string_of_int (Z.to_int y).

(** [dt.strftime('%Y-%m-%d')] *)
Definition strftime (dt : date) : string :=
  year_digits (year dt) ++ "-" ++ pad2 (month dt) ++ "-" ++ pad2 (day dt).

End Strptime.

(** ** Python values, exceptions and the effects of the method *)

Module Py.

#[local] Set Warnings "-register-all".

(** The objects [json()] builds: [None], [bool], [int], [float], [str],
    [list] and [dict]. A [dict] keeps its items in insertion order and
    its keys, which JSON makes strings, are pairwise distinct. *)
Inductive value : Type :=
| VNone
| VBool (b : bool)
| VInt (z : Z)
| VFloat (f : spec_float)
| VStr (s : string)
| VList (l : list value)
| VDict (d : list (string * value)).

Inductive exn : Type :=
| ValueError (msg : string)        (* raised by [main.py] itself *)
| LibValueError                    (* a [ValueError] raised by a library *)
| UnboundLocalError (name : string)
| KeyError (key : value)
| IndexError
| TypeError
| AttributeError
| OverflowError
| InvalidIndexError
| RequestException.

Inductive result (A : Type) : Type :=
| Ok (a : A)
| Raise (e : exn).
Arguments Ok {A} a.
Arguments Raise {A} e.

Definition bind {A B : Type} (r : result A) (k : A -> result B) : result B :=
  match r with
  | Ok a => k a
  | Raise e => Raise e
  end.

Notation "x <- r ;; k" := (bind r (fun x => k))
  (at level 61, r at next level, right associativity).

(** [for x in l: s = body(s, x)], leaving at the first exception. *)
Fixpoint for_each {A S : Type} (body : S -> A -> result S)
    (l : list A) (s : S) : result S :=
  match l with
  | [] => Ok s
  | x :: rest =>
      match body s x with
      | Ok s' => for_each body rest s'
      | Raise e => Raise e
      end
  end.

(** [d[k]] on the items of a [dict]. *)
Fixpoint lookup (k : string) (d : list (string * value)) : option value :=
  match d with
  | [] => None
  | (k', v) :: rest => if String.eqb k k' then Some v else lookup k rest
  end.

(** [v[k]] for a string [k]: only a [dict] can be indexed by a string. *)
Definition getitem (v : value) (k : string) : result value :=
  match v with
  | VDict d =>
      match lookup k d with
      | Some x => Ok x
      | None => Raise (KeyError (VStr k))
      end
  | _ => Raise TypeError
  end.

(** [v[0]]. A [dict] whose keys are strings has no key [0]. *)
Definition getitem0 (v : value) : result value :=
  match v with
  | VList (x :: _) => Ok x
  | VList [] => Raise IndexError
  | VStr (String c _) => Ok (VStr (String c EmptyString))
  | VStr EmptyString => Raise IndexError
  | VDict _ => Raise (KeyError (VInt 0))
  | _ => Raise TypeError
  end.

(** [v.items()] *)
Definition items (v : value) : result (list (string * value)) :=
  match v with
  | VDict d => Ok d
  | _ => Raise AttributeError
  end.

Definition chars (s : string) : list value :=
  map (fun c => VStr (String c EmptyString)) (list_ascii_of_string s).

(** The sequence [for x in v] runs over. *)
Definition iter (v : value) : result (list value) :=
  match v with
  | VList l => Ok l
  | VDict d => Ok (map (fun kv => VStr (fst kv)) d)
  | VStr s => Ok (chars s)
  | _ => Raise TypeError
  end.

Definition is_dict (v : value) : bool :=
  match v with VDict _ => true | _ => false end.

Definition is_list (v : value) : bool :=
  match v with VList _ => true | _ => false end.

(** Neither a [dict] nor list-like for pandas ([str] is not list-like). *)
Definition is_scalar (v : value) : bool := negb (is_dict v) && negb (is_list v).

Definition string_of_Z (z : Z) : string := NilZero.string_of_int (Z.to_int z).

Inductive event : Type :=
| Warn (msg : string)      (* [warnings.warn] *)
| Print (msg : string)     (* [print] *)
| Get (url : string).      (* [requests.get] *)

End Py.

(** ** The fragment of pandas the method uses *)

Module Pandas.
Import Py.

(** A cell holds the object it was built from; [None] is the missing
    value [NaN] that reindexing fills in. The storage type pandas picks
    for a column (its dtype) is not represented, and with it the
    conversions that unifying a column brings: an [int] next to a float
    or a missing cell is stored as a float, [None] as [NaN]. Booleans,
    strings and floats are stored as they are. *)
Definition cell : Type := option value.

(** A [DataFrame] whose index is [RangeIndex(nrows)]: every frame the
    method builds for one object is of this kind, either through
    [index=range(0, 1)] or through [reset_index(drop=True)]. Each column
    has [nrows] cells. *)
Record frame : Type := mkframe {
  nrows : nat;
  columns : list (string * list cell)
}.

(** [pd.DataFrame()] *)
Definition empty_frame : frame := mkframe 0 [].

(** A column label: JSON keys give strings, positional data gives
    integers. *)
Inductive label : Type :=
| LStr (s : string)
| LInt (z : Z).

Definition row : Type := list (string * cell).

(** The frame that stacking along [axis=0] builds up: its column index
    and its rows, oldest first. A row stores the cells of the frame it
    came from; under a column it lacks the stacked frame holds [NaN]. *)
Record table : Type := mktable {
  tcolumns : list string;
  trows : list row
}.

Definition empty_table : table := mktable [] [].

(** What the method leaves to pandas outside the shapes this file spells
    out: the constructor on data that is not a [dict], and stacking when
    column labels repeat. *)
Record lib : Type := mklib {
  DataFrame_other : value -> result (list (label * cell));
  concat_other : table -> frame -> result table
}.

Definition mem (k : string) (l : list string) : bool := existsb (String.eqb k) l.

(** Union of label lists that keeps the order of first appearance
    ([union_indexes(..., sort=False)]). *)
Definition union_keys (acc ks : list string) : list string :=
  fold_left (fun a k => if mem k a then a else (a ++ [k])%list) ks acc.

Fixpoint nodupb (l : list string) : bool :=
  match l with
  | [] => true
  | k :: rest => negb (mem k rest) && nodupb rest
  end.

Definition dict_keys (v : value) : list string :=
  match v with VDict e => map fst e | _ => [] end.

Definition list_len (v : value) : list nat :=
  match v with VList l => [List.length l] | _ => [] end.

(** The column a value of the data [dict] becomes once the index is
    known: a [dict] is read at the index labels, a list gives its
    elements, anything else is repeated. The cells are the objects
    themselves; pandas stores a column of [int]s mixed with floats or
    [None] as floats, which is not represented here. *)
Definition column_of (index : list string) (n : nat) (v : value) : list cell :=
  match v with
  | VDict e => map (fun k => lookup k e) index
  | VList l => map Some l
  | _ => repeat (Some v) n
  end.

(** [pd.DataFrame(d)] for a [dict] [d] and no index, followed by
    [reset_index(drop=True)]. The index is taken from the values
    ([_extract_index]): the union of the keys of the [dict] values, or
    the common length of the list values; with neither the constructor
    raises, as it does for lists of unequal length and for lists mixed
    with [dict]s. *)
Definition DataFrame (d : list (string * value)) : result frame :=
  let vals := map snd d in
  let index := fold_left union_keys (map dict_keys vals) [] in
  let build idx n :=
    mkframe n (map (fun kv => (fst kv, column_of idx n (snd kv))) d) in
  match d with
  | [] => Ok empty_frame
  | _ :: _ =>
      match flat_map list_len vals with
      | [] =>
          if existsb is_dict vals then Ok (build index (List.length index))
          else Raise LibValueError
      | n :: rest =>
          if forallb (Nat.eqb n) rest then
            if existsb is_dict vals then Raise LibValueError
            else Ok (build [] n)
          else Raise LibValueError
      end
  end.

(** The single cell a value gives under [index=range(0, 1)]: a [dict]
    is read at the label [0], which no JSON object has; a list must have
    one element. *)
Definition cell_at0 (v : value) : result cell :=
  match v with
  | VDict _ => Ok None
  | VList [x] => Ok (Some x)
  | VList _ => Raise LibValueError
  | _ => Ok (Some v)
  end.

Fixpoint cells_at0 (d : list (string * value)) : result (list (string * cell)) :=
  match d with
  | [] => Ok []
  | (k, v) :: rest =>
      c <- cell_at0 v ;;
      cs <- cells_at0 rest ;;
      Ok ((k, c) :: cs)
  end.

(** [pd.DataFrame(data, index=range(0, 1))]: one row, labelled columns. *)
Definition DataFrame_index0 (L : lib) (data : value) : result (list (label * cell)) :=
  match data with
  | VDict d => cs <- cells_at0 d ;; Ok (map (fun kc => (LStr (fst kc), snd kc)) cs)
  | _ => DataFrame_other L data
  end.

(** [prefix + x] for a column label [x]: [str + int] is a [TypeError]. *)
Definition add_prefix (prefix : string) (x : label) : result string :=
  match x with
  | LStr s => Ok (prefix ++ s)
  | LInt _ => Raise TypeError
  end.

(** [df.columns = [prefix + x for x in df.columns]] on a one-row frame. *)
Fixpoint rename (prefix : string) (cols : list (label * cell))
    : result (list (string * cell)) :=
  match cols with
  | [] => Ok []
  | (x, c) :: rest =>
      n <- add_prefix prefix x ;;
      cs <- rename prefix rest ;;
      Ok ((n, c) :: cs)
  end.

Definition one_row (cols : list (string * cell)) : frame :=
  mkframe 1 (map (fun nc => (fst nc, [snd nc])) cols).

Definition pad (n : nat) (c : list cell) : list cell :=
  (c ++ repeat None (n - List.length c))%list.

(** [pd.concat(fs, axis=1)] on frames with range indexes: the index is
    the longest one, the columns follow each other, shorter columns are
    filled with [NaN]. In a column that is filled, pandas stores [int]s
    as floats; the cells here keep the objects. *)
Definition concat_columns (fs : list frame) : frame :=
  let n := fold_right Nat.max 0%nat (map nrows fs) in
  mkframe n
    (flat_map (fun f => map (fun nc => (fst nc, pad n (snd nc))) (columns f)) fs).

(** The rows of a frame, first to last. *)
Definition frame_rows (f : frame) : list row :=
  map (fun i => map (fun nc => (fst nc, nth i (snd nc) None)) (columns f))
      (seq 0 (nrows f)).

(** [pd.concat([t, f], axis=0)]: rows of [f] go under those of [t] and
    the column index becomes the union. A column of the result has one
    storage type for the rows of both, so pandas stores an [int] of
    either as a float when the column also holds a float or lacks a
    cell; the rows here keep the objects, and are compared on their
    booleans, strings and floats where that matters
    ([Helpers.plain_part]). *)
Definition concat_rows (L : lib) (t : table) (f : frame) : result table :=
  let names := map fst (columns f) in
  if nodupb (tcolumns t) && nodupb names
  then Ok (mktable (union_keys (tcolumns t) names) (trows t ++ frame_rows f)%list)
  else concat_other L t f.

(** The cell of a row under a column. *)
Fixpoint row_get (name : string) (r : row) : cell :=
  match r with
  | [] => None
  | (k, c) :: rest => if String.eqb name k then c else row_get name rest
  end.

End Pandas.

(** ** [class NearEarthObjects] *)

Module Neo.
Import Calendar Strptime Py Pandas.

(** What [requests.get] returns: the status code and what [json()]
    gives, which raises when the body is not JSON. *)
Record response : Type := mkresponse {
  status_code : Z;
  json : result value
}.

(** What the method takes from outside: the clock behind
    [datetime.today()], the network behind [requests.get], and pandas. *)
Record world : Type := mkworld {
  today : date;
  requests_get : string -> result response;
  pandas : lib
}.

Record NearEarthObjects : Type := mkNearEarthObjects {
  api_key : option string;
  start_date : string;
  finish_date : string
}.

Definition missing_dates_warning : string :=
  "Start Date or End date has not been supplied. 
            Using today's data as start date and 7 days in the future as end date".

(** [NearEarthObjects.__init__(api_key, start_date, finish_date)]; an
    argument left out or passed as [None] is [None] here. *)
Definition init (w : world) (key : option string)
    (start finish : option string)
    : list event * result NearEarthObjects :=
  match start, finish with
  | Some s, Some f => ([], Ok (mkNearEarthObjects key s f))
  | _, _ =>
      let start_dt := today w in
      match add_days start_dt 7 with
      | Some end_dt =>
          ([Warn missing_dates_warning],
           Ok (mkNearEarthObjects key (strftime start_dt) (strftime end_dt)))
      | None => ([Warn missing_dates_warning], Raise OverflowError)
      end
  end.

Definition format_message : string :=
  "Date format does not seem correct. Please make sure it is in the form YYYY-MM-DD".

(** The [try] statement of lines 38-42. It leaves the local variable
    [day_diff_days] bound ([Some]) when both dates parse; otherwise the
    handler prints and the variable stays unbound ([None]). Either way
    control goes on to the next statement. *)
Definition check_format (self : NearEarthObjects) : list event * option Z :=
  match strptime (finish_date self), strptime (start_date self) with
  | Some f, Some s => ([], Some (diff_days f s))
  | _, _ => ([Print format_message], None)
  end.

Definition range_message (day_diff_days : Z) (alternative_end_date_str : string)
    : string :=
  "Please make sure the date range is at most 7 days. It is currently "
  ++ string_of_Z day_diff_days ++ " days. 
                Try " ++ alternative_end_date_str ++ " and below".

(** The [if] statement of lines 45-51, which reads [day_diff_days]. *)
Definition check_range (self : NearEarthObjects) (day_diff_days : option Z)
    : result unit :=
  match day_diff_days with
  | None => Raise (UnboundLocalError "day_diff_days")
  | Some d =>
      if 7 <? d then
        match strptime (start_date self) with
        | None => Raise LibValueError
        | Some s =>
            match add_days s 7 with
            | None => Raise OverflowError
            | Some alternative_end_date =>
                Raise (ValueError
                         (range_message d (strftime alternative_end_date)))
            end
        end
      else Ok tt
  end.

Definition show_key (key : option string) : string :=
  match key with Some k => k | None => "None" end.

Definition neo_date_range_url (self : NearEarthObjects) : string :=
  "https://api.nasa.gov/neo/rest/v1/feed?start_date=" ++ start_date self
  ++ "&end_date=" ++ finish_date self
  ++ "&api_key=" ++ show_key (api_key self).

Definition status_message (code : Z) : string :=
  "Status code: " ++ string_of_Z code ++ ". Look at JSON: <Response ["
  ++ string_of_Z code ++ "]>".

Definition unnested_general_keys : list string :=
  ["links"; "id"; "name"; "nasa_jpl_url"; "absolute_magnitude_h";
   "is_potentially_hazardous_asteroid"; "is_sentry_object"].

Definition unnested_approach_keys : list string :=
  ["close_approach_date_full"; "orbiting_body"].

Definition nested_approach_keys : list string :=
  ["relative_velocity"; "miss_distance"].

(** [{k: obj[k] for k in keys}] *)
Fixpoint subdict (obj : value) (keys : list string)
    : result (list (string * value)) :=
  match keys with
  | [] => Ok []
  | k :: rest =>
      v <- getitem obj k ;;
      d <- subdict obj rest ;;
      Ok ((k, v) :: d)
  end.

(** One turn of the loop of lines 81-85. *)
Definition size_step (L : lib) (size_df : frame) (kv : string * value)
    : result frame :=
  let (k_size, v_size) := kv in
  mini_df <- DataFrame_index0 L v_size ;;
  cols_fix <- rename ("size_" ++ k_size ++ "_") mini_df ;;
  Ok (concat_columns [size_df; one_row cols_fix]).

(** Lines 79-85: the frame of the size columns. *)
Definition size_frame (L : lib) (size_dict : value) : result frame :=
  its <- items size_dict ;;
  for_each (size_step L) its empty_frame.

(** One turn of the loop of lines 98-102; the new columns go to the
    left of those already there. *)
Definition nested_step (L : lib) (approach_data_dict : value)
    (nested_approach_df : frame) (ap : string) : result frame :=
  data <- getitem approach_data_dict ap ;;
  nested_approach_temp_df <- DataFrame_index0 L data ;;
  nested_cols_fixed <- rename (ap ++ "_") nested_approach_temp_df ;;
  Ok (concat_columns [one_row nested_cols_fixed; nested_approach_df]).

(** Lines 95-102. *)
Definition nested_frame (L : lib) (approach_data_dict : value) : result frame :=
  for_each (nested_step L approach_data_dict) nested_approach_keys empty_frame.

(** Lines 67-106: the frame of one object of the feed. *)
Definition combined_frame (L : lib) (list_item : value) : result frame :=
  temp_unnested_dict <- subdict list_item unnested_general_keys ;;
  unnested_general_df <- DataFrame temp_unnested_dict ;;
  size_dict <- getitem list_item "estimated_diameter" ;;
  size_df <- size_frame L size_dict ;;
  close_approach_data <- getitem list_item "close_approach_data" ;;
  approach_data_dict <- getitem0 close_approach_data ;;
  unnested_approach_dict <- subdict approach_data_dict unnested_approach_keys ;;
  approach_cells <- cells_at0 unnested_approach_dict ;;
  let approach_df := one_row approach_cells in
  nested_approach_df <- nested_frame L approach_data_dict ;;
  Ok (concat_columns
        [unnested_general_df; size_df; approach_df; nested_approach_df]).

(** The body of the inner loop, lines 66-107. *)
Definition flatten_item (L : lib) (clean_df : table) (list_item : value)
    : result table :=
  combined_df <- combined_frame L list_item ;;
  concat_rows L clean_df combined_df.

(** The body of the outer loop, lines 65-107. *)
Definition flatten_date (L : lib) (clean_df : table) (kv : string * value)
    : result table :=
  l <- iter (snd kv) ;;
  for_each (flatten_item L) l clean_df.

(** Lines 63-109: the loops over the feed. *)
Definition flatten (L : lib) (neos : value) : result table :=
  its <- items neos ;;
  for_each (flatten_date L) its empty_table.

(** Lines 54-109: what follows the range check. *)
Definition fetch_and_flatten (w : world) (self : NearEarthObjects)
    : list event * result table :=
  let url := neo_date_range_url self in
  ([Get url],
   neo_data <- requests_get w url ;;
   if negb (status_code neo_data =? 200)
   then Raise (ValueError (status_message (status_code neo_data)))
   else
     body <- json neo_data ;;
     neos <- getitem body "near_earth_objects" ;;
     flatten (pandas w) neos).

(** [NearEarthObjects.get_neos_by_date_range(self)] *)
Definition get_neos_by_date_range (w : world) (self : NearEarthObjects)
    : list event * result table :=
  let (printed, day_diff_days) := check_format self in
  match check_range self day_diff_days with
  | Raise e => (printed, Raise e)
  | Ok _ =>
      let (fetched, r) := fetch_and_flatten w self in
      ((printed ++ fetched)%list, r)
  end.

End Neo.

(** ** The first request of the script *)

Module Script.
Import Calendar Strptime Py Pandas Neo.

(** [NearEarthObjects(start_date=..., finish_date=..., api_key=...)
    .get_neos_by_date_range()], as lines 132-133 chain them. *)
Definition request (w : world) (api : option string)
    (start finish : option string) : list event * result table :=
  let (warned, obj) := init w api start finish in
  match obj with
  | Raise e => (warned, Raise e)
  | Ok neos_obj =>
      let (done, r) := get_neos_by_date_range w neos_obj in
      ((warned ++ done)%list, r)
  end.

(** Lines 114-118 and 132-133: this week's table, from today's date
    and the date 7 days later, both printed as YYYY-MM-DD. *)
Definition neos_now (w : world) (api : option string)
    : list event * result table :=
  let today_date := today w in
  match add_days today_date 7 with
  | None => ([], Raise OverflowError)
  | Some later_date =>
      request w api (Some (strftime today_date)) (Some (strftime later_date))
  end.

End Script.

(** ** Definitions used to state and prove the properties *)

Module Helpers.
Import Calendar Strptime Py Pandas Neo.

Definition valid (dt : date) : bool :=
  check_date_fields (year dt) (month dt) (day dt).

(** A number on four digits, zero filled: what [%Y] prints from year
    1000 on. *)
Definition pad4 (n : Z) : string :=
  String (digit_char (n / 1000)) (String (digit_char (n / 100)) (pad2 n)).

(** The second half of [_ord2ymd]: month and day from the year, its
    leap flag and the zero-based day of the year. *)
Definition month_day (y : Z) (leapyear : bool) (n : Z) : date :=
    let month := Z.shiftr (n + 50) 5 in
    let preceding :=
      DAYS_BEFORE_MONTH month + (if (2 <? month) && leapyear then 1 else 0) in
    if n <? preceding then
      let month := month - 1 in
      let preceding :=
        preceding - (DAYS_IN_MONTH month
                     + (if (month =? 2) && leapyear then 1 else 0)) in
      mkdate y month (n - preceding + 1)
    else mkdate y month (n - preceding + 1).

(** [f] holds on [lo, lo+1, ..., lo+n-1]. *)
Fixpoint all_from (f : Z -> bool) (lo : Z) (n : nat) : bool :=
  match n with
  | O => true
  | S k => f lo && all_from f (lo + 1) k
  end.

(** [month_day] lands on the right month and day for day [n] of a year. *)
Definition month_day_ok (leap : bool) (n : Z) : bool :=
  let dt := month_day 1 leap n in
  (1 <=? month dt) && (month dt <=? 12) && (1 <=? day dt)
  && (day dt <=? (if (month dt =? 2) && leap then 29 else DAYS_IN_MONTH (month dt)))
  && (DAYS_BEFORE_MONTH (month dt) + (if (2 <? month dt) && leap then 1 else 0) + day dt =? n + 1).



(** A pandas that raises on everything left to it, and a world that is
    offline: inputs for the examples. *)
Definition lib0 : lib :=
  mklib (fun _ => Raise LibValueError) (fun _ _ => Raise InvalidIndexError).

Definition offline (now : date) : world :=
  mkworld now (fun _ => Raise RequestException) lib0.


Definition has_key (k : string) (d : list (string * value)) : bool :=
  match lookup k d with Some _ => true | None => false end.

(** An object record that lacks one of the general fields. *)
Definition lacks_general_field (r : value) : bool :=
  match r with
  | VDict d => existsb (fun k => negb (has_key k d)) unnested_general_keys
  | _ => false
  end.

(** The object records of a payload: the elements of the lists that the
    dates map to, date after date. *)
Definition records_of_date (kv : string * value) : list value :=
  match snd kv with VList l => l | _ => [] end.

Definition records (neos : list (string * value)) : list value :=
  flat_map records_of_date neos.

(** Well-formedness as the specification words it: every date maps to a
    list of records, and each record has all the fields the flattener
    reads and a non-empty close-approach list. *)
Definition required_fields : list string :=
  (unnested_general_keys ++ ["estimated_diameter"; "close_approach_data"])%list.

Definition has_required_fields (r : value) : bool :=
  match r with
  | VDict d =>
      forallb (fun k => has_key k d) required_fields
      && match lookup "close_approach_data" d with
         | Some (VList (_ :: _)) => true
         | _ => false
         end
  | _ => false
  end.

Definition all_lists_of (p : value -> bool) (neos : list (string * value)) : bool :=
  forallb (fun kv => match snd kv with VList l => forallb p l | _ => false end) neos.

Definition claimed_well_formed (neos : list (string * value)) : bool :=
  all_lists_of has_required_fields neos.

(** The feed schema the flattener relies on. *)
Definition scalar_values (d : list (string * value)) : bool :=
  forallb (fun kv => is_scalar (snd kv)) d.

Definition scalar_field (k : string) (d : list (string * value)) : bool :=
  match lookup k d with Some v => is_scalar v | None => false end.

Definition unit_table (k : string) (d : list (string * value)) : bool :=
  match lookup k d with Some (VDict units) => scalar_values units | _ => false end.

(** The general cells of a row: with one link the fields as they are,
    with no link nothing but [NaN]. *)
Definition general_cells (d : list (string * value)) : row :=
  match lookup "links" d with
  | Some (VDict [(_, v)]) =>
      ("links", Some v) :: map (fun k => (k, lookup k d)) (tl unnested_general_keys)
  | _ => map (fun k => (k, None)) unnested_general_keys
  end.

(** Size columns: [size_<unit>_<field>], values as they are. *)
Definition unit_cells (prefix : string) (fields : list (string * value)) : row :=
  map (fun xv => (prefix ++ fst xv, Some (snd xv))) fields.

Definition size_cells (units : list (string * value)) : row :=
  flat_map (fun kv =>
              match snd kv with
              | VDict fields => unit_cells ("size_" ++ fst kv ++ "_") fields
              | _ => []
              end) units.

(** Nested approach columns: [<sub-structure>_<unit>]. *)
Definition nested_cells (ap : string) (a : list (string * value)) : row :=
  match lookup ap a with
  | Some (VDict units) => unit_cells (ap ++ "_") units
  | _ => []
  end.

Definition approach_cells (a : list (string * value)) : row :=
  map (fun k => (k, lookup k a)) unnested_approach_keys.

(** The row the specification describes for one object record [d]
    whose first close approach is [a]. *)
Definition item_row (d a : list (string * value)) : row :=
  (general_cells d
   ++ match lookup "estimated_diameter" d with
      | Some (VDict units) => size_cells units
      | _ => []
      end
   ++ approach_cells a
   ++ nested_cells "miss_distance" a
   ++ nested_cells "relative_velocity" a)%list.

Definition first_approach (d : list (string * value)) : list (string * value) :=
  match lookup "close_approach_data" d with
  | Some (VList (VDict a :: _)) => a
  | _ => []
  end.

Definition record_row (r : value) : row :=
  match r with
  | VDict d => item_row d (first_approach d)
  | _ => []
  end.

(** A record of the feed schema: at most one link, scalar general
    fields, a size table of unit tables, a first close approach with its
    two scalar fields and its two unit tables, and no column name that
    occurs twice. *)
Definition schema_record (r : value) : bool :=
  match r with
  | VDict d =>
      match lookup "links" d with
      | Some (VDict []) | Some (VDict [_]) => true
      | _ => false
      end
      && forallb (fun k => scalar_field k d) (tl unnested_general_keys)
      && match lookup "estimated_diameter" d with
         | Some (VDict units) =>
             forallb (fun kv => match snd kv with
                                | VDict fields => scalar_values fields
                                | _ => false
                                end) units
         | _ => false
         end
      && match lookup "close_approach_data" d with
         | Some (VList (VDict a :: _)) =>
             forallb (fun k => scalar_field k a) unnested_approach_keys
             && forallb (fun k => unit_table k a) nested_approach_keys
         | _ => false
         end
      && nodupb (map fst (record_row r))
  | _ => false
  end.

Definition schema_payload (neos : list (string * value)) : bool :=
  all_lists_of schema_record neos.

(** Inputs for the examples: the record of the specification's example
    with a given [links] field and close-approach list. *)
Definition approach_fields (date body v m : string) : list (string * value) :=
  [("close_approach_date_full", VStr date); ("orbiting_body", VStr body);
   ("relative_velocity", VDict [("kilometers_per_second", VStr v)]);
   ("miss_distance", VDict [("kilometers", VStr m)])].

Definition record_fields (links : value) (approaches : list value)
    : list (string * value) :=
  [("id", VStr "1"); ("name", VStr "A"); ("nasa_jpl_url", VStr "u");
   ("absolute_magnitude_h", VFloat (S754_finite false 5657825 (-18)));
   ("is_potentially_hazardous_asteroid", VBool false);
   ("is_sentry_object", VBool false);
   ("links", links);
   ("estimated_diameter",
    VDict [("kilometers",
            VDict [("estimated_diameter_min", VFloat (S754_finite false 1 (-3)));
                   ("estimated_diameter_max", VFloat (S754_finite false 1 (-2)))])]);
   ("close_approach_data", VList approaches)].

Definition record_example (links : value) (approaches : list value) : value :=
  VDict (record_fields links approaches).

Definition approach_a_fields : list (string * value) :=
  approach_fields "2024-Jan-01 00:00" "Earth" "10.5" "50000".

Definition approach_a : value := VDict approach_a_fields.

Definition approach_b : value :=
  VDict (approach_fields "2031-Mar-09 12:30" "Mars" "7.25" "123456").

Definition one_link : value := VDict [("self", VStr "http://x/1")].

Definition two_links : value :=
  VDict [("self", VStr "http://x/1"); ("next", VStr "http://x/2")].

(** The first row of a frame, and frames of at most one row. *)
Definition first_row (f : frame) : row :=
  map (fun nc => (fst nc, nth 0 (snd nc) None)) (columns f).

Definition thin (f : frame) : Prop :=
  (nrows f <= 1)%nat
  /\ Forall (fun nc : string * list cell => (List.length (snd nc) <= 1)%nat)
            (columns f).

(** A world whose network answers every request with the given
    response. *)
Definition answering (now : date) (resp : response) : world :=
  mkworld now (fun _ => Ok resp) lib0.

Definition feed_example : list (string * value) :=
  [("2024-01-02", VList [record_example one_link [approach_b];
                         record_example one_link [approach_a]]);
   ("2024-01-01", VList [record_example one_link [approach_b]])].

(** The specification's example record with one more field, which the
    flattener does not read. *)
Definition record_with_extra_field : list (string * value) :=
  ("neo_reference_id", VStr "2000433") :: record_fields one_link [approach_a].

(** What the schema asks of a record up to the size table: the part
    the flattener has gone through when it turns to the close-approach
    list. *)
Definition schema_up_to_size (d : list (string * value)) : bool :=
  match lookup "links" d with
  | Some (VDict []) | Some (VDict [_]) => true
  | _ => false
  end
  && forallb (fun k => scalar_field k d) (tl unnested_general_keys)
  && match lookup "estimated_diameter" d with
     | Some (VDict units) =>
         forallb (fun kv => match snd kv with
                            | VDict fields => scalar_values fields
                            | _ => false
                            end) units
     | _ => false
     end.

(** The first of the keys that [d] lacks. *)
Fixpoint first_missing (keys : list string) (d : list (string * value))
    : option string :=
  match keys with
  | [] => None
  | k :: rest => if has_key k d then first_missing rest d else Some k
  end.

(** Column names of the size table and of a nested approach table, in
    the order of the payload. *)
Definition size_names (units : list (string * value)) : list string :=
  flat_map (fun kv =>
              match snd kv with
              | VDict fields =>
                  map (fun xv => ("size_" ++ fst kv ++ "_" ++ fst xv)%string) fields
              | _ => []
              end) units.

Definition nested_names (ap : string) (a : list (string * value)) : list string :=
  match lookup ap a with
  | Some (VDict units) => map (fun uv => (ap ++ "_" ++ fst uv)%string) units
  | _ => []
  end.

(** Two records of the specification's example that differ in the
    units they carry. *)
Definition record_in_miles : value :=
  VDict [("id", VStr "2"); ("name", VStr "B"); ("nasa_jpl_url", VStr "v");
         ("absolute_magnitude_h", VInt 21);
         ("is_potentially_hazardous_asteroid", VBool true);
         ("is_sentry_object", VBool false);
         ("links", one_link);
         ("estimated_diameter",
          VDict [("miles", VDict [("estimated_diameter_min", VInt 1)])]);
         ("close_approach_data", VList [approach_b])].

(** The schema without its condition on the links. *)
Definition schema_but_links (d : list (string * value)) : bool :=
  forallb (fun k => scalar_field k d) (tl unnested_general_keys)
  && match lookup "estimated_diameter" d with
     | Some (VDict units) =>
         forallb (fun kv => match snd kv with
                            | VDict fields => scalar_values fields
                            | _ => false
                            end) units
     | _ => false
     end
  && match lookup "close_approach_data" d with
     | Some (VList (VDict a :: _)) =>
         forallb (fun k => scalar_field k a) unnested_approach_keys
         && forallb (fun k => unit_table k a) nested_approach_keys
     | _ => false
     end
  && nodupb (map fst (record_row (VDict d))).

Definition three_links : value :=
  VDict [("self", VStr "http://x/1"); ("next", VStr "http://x/2");
         ("prev", VStr "http://x/0")].

(** The objects a column of pandas keeps as they are, whatever else the
    column holds: booleans, strings and floats that are numbers. Integers
    and [None] are not among them: next to a float or a missing cell
    pandas stores them as floats. *)
Definition plain (v : value) : bool :=
  match v with
  | VBool _ | VStr _ => true
  | VFloat S754_nan => false
  | VFloat _ => true
  | _ => false
  end.

Definition plain_cell (c : cell) : bool :=
  match c with Some v => plain v | None => true end.

Definition plain_row (r : row) : bool := forallb (fun kc => plain_cell (snd kc)) r.

(** A record whose cells are all of this kind, and a payload of such
    records. *)
Definition plain_record (r : value) : bool := plain_row (record_row r).

Definition plain_payload (neos : list (string * value)) : bool :=
  all_lists_of plain_record neos.












End Helpers.

(** * Properties *)

(** ** The calendar *)

Module CalendarFacts.
Import Calendar Helpers.

Ltac month_calc :=
  cbv [days_before_month days_in_month DAYS_BEFORE_MONTH DAYS_IN_MONTH
       Z.eqb Pos.eqb Z.ltb Z.compare Pos.compare Pos.compare_cont andb] in *.

Lemma days_before_year_next y : 1 <= y ->
  days_before_year (y + 1) = days_before_year y + 365 + (if is_leap y then 1 else 0).
Proof.
  intros Hy. unfold days_before_year, is_leap.
  replace (y + 1 - 1) with y by lia.
  destruct (y mod 4 =? 0) eqn:E4; destruct (y mod 100 =? 0) eqn:E100;
  destruct (y mod 400 =? 0) eqn:E400; simpl;
  rewrite ?Z.eqb_eq, ?Z.eqb_neq in *; Z.div_mod_to_equations; lia.
Qed.

Lemma days_before_year_mono y z :
  y <= z -> days_before_year y <= days_before_year z.
Proof. unfold days_before_year. intros. Z.div_mod_to_equations. lia. Qed.

Lemma ymd2ord_bounds y m d :
  check_date_fields y m d = true -> 1 <= ymd2ord y m d <= MAXORDINAL.
Proof.
  unfold check_date_fields, MINYEAR, MAXYEAR. intros H.
  repeat (apply andb_prop in H; destruct H as [H ?]).
  rewrite ?Z.leb_le in *.
  assert (Hm : m = 1 \/ m = 2 \/ m = 3 \/ m = 4 \/ m = 5 \/ m = 6 \/ m = 7
               \/ m = 8 \/ m = 9 \/ m = 10 \/ m = 11 \/ m = 12) by lia.
  assert (Hn : days_before_month y m + d <= 365 + (if is_leap y then 1 else 0)).
  { unfold days_before_month, days_in_month in *.
    destruct (is_leap y); repeat (destruct Hm as [-> | Hm]; [month_calc; lia|]); subst; month_calc; lia. }
  assert (Hp : 0 <= days_before_month y m).
  { unfold days_before_month. destruct (is_leap y); repeat (destruct Hm as [-> | Hm]; [month_calc; lia|]); subst; month_calc; lia. }
  unfold ymd2ord.
  pose proof (days_before_year_next y ltac:(lia)).
  pose proof (days_before_year_mono (y + 1) 10000 ltac:(lia)).
  pose proof (days_before_year_mono 1 y ltac:(lia)).
  change (days_before_year 10000) with 3652059 in *.
  change (days_before_year 1) with 0 in *.
  unfold MAXORDINAL. lia.
Qed.

Lemma all_from_spec f n : forall lo z,
  all_from f lo n = true -> lo <= z < lo + Z.of_nat n -> f z = true.
Proof.
  induction n as [|k IH]; intros lo z H Hz; [lia|].
  cbn [all_from] in H. apply andb_prop in H as [H0 H1].
  destruct (Z.eq_dec z lo) as [->|Hne]; [exact H0|].
  apply (IH (lo + 1)); [exact H1|lia].
Qed.

Lemma month_day_all_leap : all_from (month_day_ok true) 0 366 = true.
Proof. vm_compute. reflexivity. Qed.
Lemma month_day_all_common : all_from (month_day_ok false) 0 365 = true.
Proof. vm_compute. reflexivity. Qed.

Lemma month_day_year y leap n : year (month_day y leap n) = y.
Proof. unfold month_day. cbv zeta. destruct (_ <? _); reflexivity. Qed.
Lemma month_day_indep y leap n :
  month (month_day y leap n) = month (month_day 1 leap n) /\
  day (month_day y leap n) = day (month_day 1 leap n).
Proof. unfold month_day. cbv zeta. destruct (_ <? _); split; reflexivity. Qed.


Lemma is_leap_quot q400 q100 q4 q1 :
  0 <= q100 <= 3 -> 0 <= q4 <= 24 -> 0 <= q1 <= 3 ->
  is_leap (q400 * 400 + 1 + (q100 * 100 + q4 * 4 + q1))
  = (q1 =? 3) && (negb (q4 =? 24) || (q100 =? 3)).
Proof.
  intros H100 H4 H1. unfold is_leap.
  set (y := q400 * 400 + 1 + (q100 * 100 + q4 * 4 + q1)).
  assert (E4 : y mod 4 = (q1 + 1) mod 4) by (subst y; Z.div_mod_to_equations; lia).
  assert (E100 : y mod 100 = (q4 * 4 + q1 + 1) mod 100) by (subst y; Z.div_mod_to_equations; lia).
  assert (E400 : y mod 400 = (q100 * 100 + q4 * 4 + q1 + 1) mod 400) by (subst y; Z.div_mod_to_equations; lia).
  rewrite E4, E100, E400. clear E4 E100 E400 y.
  destruct (q1 =? 3) eqn:A1; destruct (q4 =? 24) eqn:A4; destruct (q100 =? 3) eqn:A100;
  rewrite ?Z.eqb_eq, ?Z.eqb_neq in *; subst; cbn [andb orb negb];
  repeat match goal with
  | |- context [?a mod ?b =? 0] =>
      let E := fresh in destruct (a mod b =? 0) eqn:E;
      rewrite ?Z.eqb_eq, ?Z.eqb_neq in E
  end; cbn [andb orb negb]; try reflexivity; exfalso; Z.div_mod_to_equations; lia.
Qed.

Lemma days_before_year_quot q400 q100 q4 q1 :
  0 <= q100 <= 3 -> 0 <= q4 <= 24 -> 0 <= q1 <= 3 ->
  days_before_year (q400 * 400 + 1 + (q100 * 100 + q4 * 4 + q1))
  = q400 * DI400Y + q100 * DI100Y + q4 * DI4Y + q1 * 365.
Proof.
  intros. unfold days_before_year, DI400Y, DI100Y, DI4Y.
  Z.div_mod_to_equations. lia.
Qed.

Lemma ord2ymd_year_part n :
  exists y doy,
    days_before_year y + doy = n - 1 /\
    0 <= doy < 365 + (if is_leap y then 1 else 0) /\
    ord2ymd n = month_day y (is_leap y) doy.
Proof.
  unfold ord2ymd. cbv zeta.
  set (n0 := n - 1).
  set (q400 := n0 / DI400Y). set (r400 := n0 mod DI400Y).
  set (q100 := r400 / DI100Y). set (r100 := r400 mod DI100Y).
  set (q4 := r100 / DI4Y). set (r4 := r100 mod DI4Y).
  set (q1 := r4 / 365). set (r1 := r4 mod 365).
  assert (E400 : n0 = DI400Y * q400 + r400 /\ 0 <= r400 < DI400Y)
    by (subst q400 r400; unfold DI400Y; split; [apply Z.div_mod; lia | apply Z.mod_pos_bound; lia]).
  assert (E100 : r400 = DI100Y * q100 + r100 /\ 0 <= r100 < DI100Y)
    by (subst q100 r100; unfold DI100Y; split; [apply Z.div_mod; lia | apply Z.mod_pos_bound; lia]).
  assert (E4 : r100 = DI4Y * q4 + r4 /\ 0 <= r4 < DI4Y)
    by (subst q4 r4; unfold DI4Y; split; [apply Z.div_mod; lia | apply Z.mod_pos_bound; lia]).
  assert (E1 : r4 = 365 * q1 + r1 /\ 0 <= r1 < 365)
    by (subst q1 r1; split; [apply Z.div_mod; lia | apply Z.mod_pos_bound; lia]).
  assert (B100 : 0 <= q100 <= 4) by (subst q100; unfold DI400Y, DI100Y in *; Z.div_mod_to_equations; lia).
  assert (B4 : 0 <= q4 <= 24) by (subst q4; unfold DI100Y, DI4Y in *; Z.div_mod_to_equations; lia).
  assert (B1 : 0 <= q1 <= 4) by (subst q1; unfold DI4Y in *; Z.div_mod_to_equations; lia).
  clearbody q400 r400 q100 r100 q4 r4 q1 r1 n0.
  unfold DI400Y, DI100Y, DI4Y in *.
  destruct ((q1 =? 4) || (q100 =? 4)) eqn:Edge.
  - (* last day of a 4-year or 400-year cycle *)
    exists (q400 * 400 + 1 + (q100 * 100 + q4 * 4 + q1) - 1), 365.
    set (y := q400 * 400 + 1 + (q100 * 100 + q4 * 4 + q1) - 1).
    assert (L : is_leap y = true).
    { apply orb_prop in Edge. unfold is_leap.
      destruct Edge as [E|E]; apply Z.eqb_eq in E.
      - assert (q4 <= 23) by lia. assert (q100 <= 3) by lia.
        replace (y mod 4) with 0 by (subst y; Z.div_mod_to_equations; lia).
        assert (y mod 100 <> 0) by (subst y; Z.div_mod_to_equations; lia).
        apply Z.eqb_neq in H1. rewrite H1. reflexivity.
      - assert (q4 = 0 /\ q1 = 0) as [-> ->] by lia. subst q100.
        replace (y mod 4) with 0 by (subst y; Z.div_mod_to_equations; lia).
        replace (y mod 400) with 0 by (subst y; Z.div_mod_to_equations; lia).
        rewrite orb_true_r. reflexivity. }
    rewrite L. split; [|split; [lia|]].
    + apply orb_prop in Edge. unfold days_before_year.
      destruct Edge as [E|E]; apply Z.eqb_eq in E; subst y; Z.div_mod_to_equations; lia.
    + reflexivity.
  - apply orb_false_elim in Edge as [N1 N100].
    apply Z.eqb_neq in N1, N100.
    exists (q400 * 400 + 1 + (q100 * 100 + q4 * 4 + q1)), r1.
    rewrite is_leap_quot by lia.
    rewrite days_before_year_quot by lia.
    unfold DI400Y, DI100Y, DI4Y.
    split; [lia|]. split.
    + destruct ((q1 =? 3) && (negb (q4 =? 24) || (q100 =? 3))) eqn:Lp; [lia|].
      apply andb_false_elim in Lp. destruct Lp as [Lp|Lp].
      * apply Z.eqb_neq in Lp. lia.
      * apply orb_false_elim in Lp as [La Lb]. apply negb_false_iff in La.
        apply Z.eqb_eq in La. apply Z.eqb_neq in Lb. lia.
    + reflexivity.
Qed.


Lemma month_day_correct y doy :
  0 <= doy < 365 + (if is_leap y then 1 else 0) ->
  let dt := month_day y (is_leap y) doy in
  year dt = y /\ 1 <= month dt <= 12 /\ 1 <= day dt <= days_in_month y (month dt)
  /\ days_before_month y (month dt) + day dt = doy + 1.
Proof.
  intros Hd dt. subst dt.
  destruct (month_day_indep y (is_leap y) doy) as [Em Ed].
  rewrite month_day_year, Em, Ed.
  assert (Hok : month_day_ok (is_leap y) doy = true).
  { destruct (is_leap y).
    - apply (all_from_spec _ _ _ _ month_day_all_leap). lia.
    - apply (all_from_spec _ _ _ _ month_day_all_common). lia. }
  unfold month_day_ok in Hok. cbv zeta in Hok.
  repeat (apply andb_prop in Hok; destruct Hok as [Hok ?]).
  rewrite ?Z.leb_le, ?Z.eqb_eq in *.
  unfold days_in_month, days_before_month. repeat split; lia.
Qed.

(** [fromordinal] followed by [toordinal] gives the ordinal back. *)
Lemma toordinal_fromordinal n : toordinal (fromordinal n) = n.
Proof.
  unfold fromordinal, toordinal.
  destruct (ord2ymd_year_part n) as (y & doy & Hs & Hb & ->).
  destruct (month_day_correct y doy Hb) as (Ey & _ & _ & Ed).
  rewrite Ey. unfold ymd2ord. lia.
Qed.

Lemma fromordinal_valid n :
  1 <= n <= MAXORDINAL -> valid (fromordinal n) = true.
Proof.
  intros Hn. unfold fromordinal, valid.
  destruct (ord2ymd_year_part n) as (y & doy & Hs & Hb & ->).
  destruct (month_day_correct y doy Hb) as (Ey & Hm & Hd & _).
  rewrite Ey. unfold check_date_fields, MINYEAR, MAXYEAR.
  assert (1 <= y).
  { destruct (Z_lt_le_dec y 1) as [Hlt|]; [|assumption].
    pose proof (days_before_year_mono y 0 ltac:(lia)) as M.
    change (days_before_year 0) with (-366) in M.
    destruct (is_leap y); lia. }
  assert (y <= 9999).
  { destruct (Z_lt_le_dec 9999 y) as [Hlt|]; [|assumption].
    pose proof (days_before_year_mono 10000 y ltac:(lia)) as M.
    change (days_before_year 10000) with 3652059 in M.
    unfold MAXORDINAL in Hn. lia. }
  repeat (apply andb_true_intro; split); apply Z.leb_le; lia.
Qed.

(** On dates the constructor accepts, the ordinal tells the date. *)
Lemma toordinal_inj a b :
  valid a = true -> valid b = true -> toordinal a = toordinal b -> a = b.
Proof.
  destruct a as [y m d], b as [y' m' d']. unfold valid, toordinal. cbn [year month day].
  intros Va Vb E.
  assert (Ba : days_before_year y < ymd2ord y m d <= days_before_year (y + 1)).
  { revert Va. unfold check_date_fields, MINYEAR. intros H.
    repeat (apply andb_prop in H; destruct H as [H ?]).
    rewrite ?Z.leb_le in *.
    rewrite days_before_year_next by lia. unfold ymd2ord.
    assert (Hm : m = 1 \/ m = 2 \/ m = 3 \/ m = 4 \/ m = 5 \/ m = 6 \/ m = 7
                 \/ m = 8 \/ m = 9 \/ m = 10 \/ m = 11 \/ m = 12) by lia.
    unfold days_before_month, days_in_month in *.
    destruct (is_leap y);
      repeat (destruct Hm as [-> | Hm]; [month_calc; lia|]); subst; month_calc; lia. }
  assert (Bb : days_before_year y' < ymd2ord y' m' d' <= days_before_year (y' + 1)).
  { revert Vb. unfold check_date_fields, MINYEAR. intros H.
    repeat (apply andb_prop in H; destruct H as [H ?]).
    rewrite ?Z.leb_le in *.
    rewrite days_before_year_next by lia. unfold ymd2ord.
    assert (Hm : m' = 1 \/ m' = 2 \/ m' = 3 \/ m' = 4 \/ m' = 5 \/ m' = 6 \/ m' = 7
                 \/ m' = 8 \/ m' = 9 \/ m' = 10 \/ m' = 11 \/ m' = 12) by lia.
    unfold days_before_month, days_in_month in *.
    destruct (is_leap y');
      repeat (destruct Hm as [-> | Hm]; [month_calc; lia|]); subst; month_calc; lia. }
  assert (Ey : y = y').
  { destruct (Z.lt_trichotomy y y') as [Hlt|[Heq|Hgt]]; [|assumption|].
    - pose proof (days_before_year_mono (y + 1) y' ltac:(lia)). lia.
    - pose proof (days_before_year_mono (y' + 1) y ltac:(lia)). lia. }
  subst y'. unfold ymd2ord in E.
  revert Va Vb. unfold check_date_fields. intros Va Vb.
  repeat (apply andb_prop in Va; destruct Va as [Va ?]).
  repeat (apply andb_prop in Vb; destruct Vb as [Vb ?]).
  rewrite ?Z.leb_le in *.
  assert (Hm : m = 1 \/ m = 2 \/ m = 3 \/ m = 4 \/ m = 5 \/ m = 6 \/ m = 7
               \/ m = 8 \/ m = 9 \/ m = 10 \/ m = 11 \/ m = 12) by lia.
  assert (Hm' : m' = 1 \/ m' = 2 \/ m' = 3 \/ m' = 4 \/ m' = 5 \/ m' = 6 \/ m' = 7
               \/ m' = 8 \/ m' = 9 \/ m' = 10 \/ m' = 11 \/ m' = 12) by lia.
  unfold days_before_month, days_in_month in *.
  assert (m = m' /\ d = d') as [-> ->]; [|reflexivity].
  destruct (is_leap y);
    repeat (destruct Hm as [-> | Hm]);
    repeat (destruct Hm' as [-> | Hm']); subst; month_calc; lia.
Qed.

(** [toordinal] followed by [fromordinal] gives the date back. *)
Lemma fromordinal_toordinal dt :
  valid dt = true -> fromordinal (toordinal dt) = dt.
Proof.
  intros V. apply toordinal_inj; [|exact V|apply toordinal_fromordinal].
  apply fromordinal_valid. apply ymd2ord_bounds. exact V.
Qed.

(** A date lies after the days before its year and within that year. *)
Lemma ordinal_in_year dt :
  valid dt = true ->
  days_before_year (year dt) < toordinal dt <= days_before_year (year dt + 1).
Proof.
  destruct dt as [y m d]. unfold valid, toordinal. cbn [year month day].
  unfold check_date_fields, MINYEAR. intros H.
  repeat (apply andb_prop in H; destruct H as [H ?]).
  rewrite ?Z.leb_le in *.
  rewrite days_before_year_next by lia. unfold ymd2ord.
  assert (Hm : m = 1 \/ m = 2 \/ m = 3 \/ m = 4 \/ m = 5 \/ m = 6 \/ m = 7
               \/ m = 8 \/ m = 9 \/ m = 10 \/ m = 11 \/ m = 12) by lia.
  unfold days_before_month, days_in_month in *.
  destruct (is_leap y);
    repeat (destruct Hm as [-> | Hm]; [month_calc; lia|]); subst; month_calc; lia.
Qed.

(** A later date is not in an earlier year. *)
Lemma year_mono a b :
  valid a = true -> valid b = true -> toordinal a <= toordinal b ->
  year a <= year b.
Proof.
  intros Va Vb H.
  pose proof (ordinal_in_year a Va) as Ba.
  pose proof (ordinal_in_year b Vb) as Bb.
  destruct (Z_lt_le_dec (year b) (year a)) as [Hlt|]; [|assumption].
  pose proof (days_before_year_mono (year b + 1) (year a) ltac:(lia)). lia.
Qed.
End CalendarFacts.

(** ** [strptime] and [strftime] *)

Module StrptimeFacts.
Import Calendar Strptime Helpers CalendarFacts.

Lemma digit_char_spec n :
  is_digit (digit_char n) = true /\ digit_val (digit_char n) = n mod 10.
Proof.
  unfold digit_char.
  assert (H : 0 <= n mod 10 < 10) by (apply Z.mod_pos_bound; lia).
  set (k := n mod 10) in *. clearbody k.
  assert (Hk : k = 0 \/ k = 1 \/ k = 2 \/ k = 3 \/ k = 4 \/ k = 5 \/ k = 6
               \/ k = 7 \/ k = 8 \/ k = 9) by lia.
  repeat (destruct Hk as [-> | Hk]; [split; reflexivity|]).
  subst. split; reflexivity.
Qed.

Lemma match_format_year a b c d r :
  is_digit a = true -> is_digit b = true -> is_digit c = true -> is_digit d = true ->
  match_format (String a (String b (String c (String d r)))) =
  flat_map (fun r2 =>
      flat_map (fun '(m, r3) =>
        flat_map (fun r4 =>
          map (fun '(dd, r5) =>
                 (1000 * digit_val a + 100 * digit_val b
                  + 10 * digit_val c + digit_val d, m, dd, r5))
              (match_d r4))
          (match_dash r3))
        (match_m r2))
      (match_dash r).
Proof.
  intros Ha Hb Hc Hd. unfold match_format, match_Y.
  rewrite Ha, Hb, Hc, Hd. cbn [andb flat_map]. apply app_nil_r.
Qed.

Lemma year_digits_all :
  all_from (fun y => String.eqb (year_digits y) (pad4 y)) 1000 (Z.to_nat 9000)
  = true.
Proof. vm_compute. reflexivity. Qed.

(** From year 1000 on the year is printed on its four digits. *)
Lemma year_digits_pad4 y : 1000 <= y <= 9999 -> year_digits y = pad4 y.
Proof.
  intros H. apply String.eqb_eq.
  apply (CalendarFacts.all_from_spec _ _ _ _ year_digits_all).
  rewrite Z2Nat.id; lia.
Qed.

Lemma match_format_strftime y m d :
  1000 <= y <= 9999 -> 1 <= m <= 12 -> 1 <= d <= 31 ->
  hd_error (match_format (strftime (mkdate y m d))) = Some (y, m, d, EmptyString).
Proof.
  intros Hy Hm Hd. unfold strftime. cbn [year month day].
  rewrite (year_digits_pad4 y Hy). unfold pad4.
  unfold pad2 at 1. cbn [append].
  destruct (digit_char_spec (y / 1000)) as [D1 V1].
  destruct (digit_char_spec (y / 100)) as [D2 V2].
  destruct (digit_char_spec (y / 10)) as [D3 V3].
  destruct (digit_char_spec y) as [D4 V4].
  rewrite match_format_year by assumption.
  rewrite V1, V2, V3, V4.
  replace (1000 * ((y / 1000) mod 10) + 100 * ((y / 100) mod 10)
           + 10 * ((y / 10) mod 10) + y mod 10) with y
    by (Z.div_mod_to_equations; lia).
  assert (Em : m = 1 \/ m = 2 \/ m = 3 \/ m = 4 \/ m = 5 \/ m = 6 \/ m = 7
               \/ m = 8 \/ m = 9 \/ m = 10 \/ m = 11 \/ m = 12) by lia.
  assert (Ed : d = 1 \/ d = 2 \/ d = 3 \/ d = 4 \/ d = 5 \/ d = 6 \/ d = 7
               \/ d = 8 \/ d = 9 \/ d = 10 \/ d = 11 \/ d = 12 \/ d = 13
               \/ d = 14 \/ d = 15 \/ d = 16 \/ d = 17 \/ d = 18 \/ d = 19
               \/ d = 20 \/ d = 21 \/ d = 22 \/ d = 23 \/ d = 24 \/ d = 25
               \/ d = 26 \/ d = 27 \/ d = 28 \/ d = 29 \/ d = 30 \/ d = 31) by lia.
  clear Hm Hd Hy D1 D2 D3 D4 V1 V2 V3 V4.
  repeat (destruct Em as [-> | Em]);
    repeat (destruct Ed as [-> | Ed]); subst; vm_compute; reflexivity.
Qed.

Lemma valid_bounds y m d :
  check_date_fields y m d = true ->
  1 <= y <= 9999 /\ 1 <= m <= 12 /\ 1 <= d <= 31.
Proof.
  unfold check_date_fields, MINYEAR, MAXYEAR. intros H.
  repeat (apply andb_prop in H; destruct H as [H ?]).
  rewrite ?Z.leb_le in *.
  assert (Hm : m = 1 \/ m = 2 \/ m = 3 \/ m = 4 \/ m = 5 \/ m = 6 \/ m = 7
               \/ m = 8 \/ m = 9 \/ m = 10 \/ m = 11 \/ m = 12) by lia.
  unfold days_in_month in *.
  destruct (is_leap y);
    repeat (destruct Hm as [-> | Hm]; [month_calc; lia|]); subst; month_calc; lia.
Qed.

(** A date from year 1000 on that [strftime] printed is read back by
    [strptime]. *)
Lemma strptime_strftime dt :
  valid dt = true -> 1000 <= year dt -> strptime (strftime dt) = Some dt.
Proof.
  destruct dt as [y m d]. unfold valid. cbn [year month day]. intros V Hy0.
  destruct (valid_bounds y m d V) as (Hy & Hm & Hd).
  pose proof (match_format_strftime y m d ltac:(lia) Hm Hd) as H.
  unfold strptime.
  destruct (match_format (strftime (mkdate y m d))) as [|[[[y' m'] d'] r] tl];
    cbn [hd_error] in H; [discriminate|].
  injection H as -> -> -> ->. cbn [String.eqb]. rewrite V. reflexivity.
Qed.

(** What [strptime] returns is a date the constructor accepts. *)
Lemma strptime_valid s dt : strptime s = Some dt -> valid dt = true.
Proof.
  unfold strptime.
  destruct (match_format s) as [|[[[y m] d] r] tl]; [discriminate|].
  destruct (String.eqb r ""); [|discriminate].
  destruct (check_date_fields y m d) eqn:V; [|discriminate].
  intros [= <-]. exact V.
Qed.


(** Sample runs of the two calls. *)

Example strptime_plain : strptime "2024-01-10" = Some (mkdate 2024 1 10).
Proof. reflexivity. Qed.

Example strptime_short_fields : strptime "2024-1-5" = Some (mkdate 2024 1 5).
Proof. reflexivity. Qed.

Example strptime_feb29 :
  strptime "2024-02-29" = Some (mkdate 2024 2 29) /\ strptime "2023-02-29" = None.
Proof. split; reflexivity. Qed.

Example strptime_rejects :
  map strptime ["2024/01/10"; "24-01-10"; "2024-13-01"; "2024-01-32";
                "2024-01-10 "; "0000-01-01"; ""]
  = [None; None; None; None; None; None; None].
Proof. reflexivity. Qed.

Example strftime_plain : strftime (mkdate 2024 1 8) = "2024-01-08"%string.
Proof. reflexivity. Qed.

Example ord_2024 :
  toordinal (mkdate 2024 1 1) = 738886 /\ fromordinal 738893 = mkdate 2024 1 8.
Proof. split; reflexivity. Qed.

End StrptimeFacts.

(** ** The constructor and the date-range check *)

Module ValidationFacts.
Import Calendar Strptime Py Pandas Neo Helpers CalendarFacts StrptimeFacts.

Lemma check_format_parsed self s f :
  strptime (start_date self) = Some s ->
  strptime (finish_date self) = Some f ->
  check_format self = ([], Some (diff_days f s)).
Proof. intros Hs Hf. unfold check_format. rewrite Hs, Hf. reflexivity. Qed.

Lemma check_format_failed self :
  strptime (start_date self) = None \/ strptime (finish_date self) = None ->
  check_format self = ([Print format_message], None).
Proof.
  intros H. unfold check_format.
  destruct H as [H|H]; rewrite H; [destruct (strptime (finish_date self))|];
    reflexivity.
Qed.

(** Seven days after a date that has a later date more than seven days
    away is still a date. *)
Lemma add_days_7 s f :
  valid s = true -> valid f = true -> 7 < diff_days f s ->
  add_days s 7 = Some (fromordinal (toordinal s + 7)).
Proof.
  intros Vs Vf Hd. unfold add_days, diff_days in *.
  pose proof (ymd2ord_bounds _ _ _ Vs) as Bs.
  pose proof (ymd2ord_bounds _ _ _ Vf) as Bf.
  fold (toordinal s) in Bs. fold (toordinal f) in Bf.
  replace (0 <? toordinal s + 7) with true by (symmetry; apply Z.ltb_lt; lia).
  replace (toordinal s + 7 <=? MAXORDINAL) with true
    by (symmetry; apply Z.leb_le; lia).
  reflexivity.
Qed.

(** C1. When both dates parse and the finish date is 0 to 7 days after
    the start date, the range check raises nothing and the method goes on
    to the fetch, whose URL carries the two date strings as they were
    given. *)
Theorem C1_range_accepted (w : world) (self : NearEarthObjects) (s f : date) :
  strptime (start_date self) = Some s ->
  strptime (finish_date self) = Some f ->
  0 <= diff_days f s <= 7 ->
  check_range self (snd (check_format self)) = Ok tt
  /\ get_neos_by_date_range w self = fetch_and_flatten w self
  /\ fst (get_neos_by_date_range w self)
     = [Get ("https://api.nasa.gov/neo/rest/v1/feed?start_date="
             ++ start_date self ++ "&end_date=" ++ finish_date self
             ++ "&api_key=" ++ show_key (api_key self))%string].
Proof.
  intros Hs Hf Hd.
  assert (R : check_range self (Some (diff_days f s)) = Ok tt).
  { unfold check_range.
    replace (7 <? diff_days f s) with false by (symmetry; apply Z.ltb_ge; lia).
    reflexivity. }
  assert (G : get_neos_by_date_range w self = fetch_and_flatten w self).
  { unfold get_neos_by_date_range.
    rewrite (check_format_parsed self s f Hs Hf), R.
    destruct (fetch_and_flatten w self). reflexivity. }
  rewrite (check_format_parsed self s f Hs Hf). cbn [snd].
  split; [exact R|]. split; [exact G|].
  rewrite G. reflexivity.
Qed.

Lemma C1_range_accepted_witness :
  fst (get_neos_by_date_range (offline (mkdate 2026 11 4))
         (mkNearEarthObjects (Some "KEY") "2024-01-01" "2024-01-07"))
  = [Get "https://api.nasa.gov/neo/rest/v1/feed?start_date=2024-01-01&end_date=2024-01-07&api_key=KEY"].
Proof.
  apply (C1_range_accepted (offline (mkdate 2026 11 4))
           (mkNearEarthObjects (Some "KEY") "2024-01-01" "2024-01-07")
           (mkdate 2024 1 1) (mkdate 2024 1 7)).
  - reflexivity.
  - reflexivity.
  - vm_compute. split; discriminate.
Defined.

Lemma week_later_prints s :
  valid s = true -> 1000 <= year s -> toordinal s + 7 <= MAXORDINAL ->
  valid (fromordinal (toordinal s + 7)) = true
  /\ 1000 <= year (fromordinal (toordinal s + 7))
  /\ strptime (strftime (fromordinal (toordinal s + 7)))
     = Some (fromordinal (toordinal s + 7))
  /\ diff_days (fromordinal (toordinal s + 7)) s = 7.
Proof.
  intros Vs Hy B.
  pose proof (ymd2ord_bounds _ _ _ Vs) as Bs. fold (toordinal s) in Bs.
  assert (V : valid (fromordinal (toordinal s + 7)) = true)
    by (apply fromordinal_valid; lia).
  assert (Y : 1000 <= year (fromordinal (toordinal s + 7))).
  { pose proof (year_mono s _ Vs V) as M.
    rewrite toordinal_fromordinal in M. lia. }
  split; [exact V|]. split; [exact Y|]. split.
  - apply strptime_strftime; assumption.
  - unfold diff_days. rewrite toordinal_fromordinal. lia.
Qed.

Lemma strftime_length dt :
  valid dt = true -> 1000 <= year dt -> String.length (strftime dt) = 10%nat.
Proof.
  intros V Hy. destruct dt as [y m d]. unfold valid in V.
  cbn [year month day] in *.
  destruct (valid_bounds y m d V) as (By & _ & _).
  unfold strftime. cbn [year month day].
  rewrite (year_digits_pad4 y ltac:(lia)). reflexivity.
Qed.

(** C2, as the code has it. When both dates parse, the start date is in
    year 1000 or later and the finish date is more than 7 days after the
    start date, the method raises the range error before any fetch. The
    message names the span in days and, after [Try], the start date plus
    7 days printed as YYYY-MM-DD: ten characters that read back as a date
    exactly 7 days after the start. *)
Theorem C2_range_rejected (w : world) (self : NearEarthObjects) (s f : date) :
  strptime (start_date self) = Some s ->
  strptime (finish_date self) = Some f ->
  7 < diff_days f s ->
  1000 <= year s ->
  exists alt : date,
    add_days s 7 = Some alt
    /\ get_neos_by_date_range w self
       = ([], Raise (ValueError
                       ("Please make sure the date range is at most 7 days. It is currently "
                        ++ string_of_Z (diff_days f s) ++ " days. 
                Try " ++ strftime alt ++ " and below")%string))
    /\ String.length (strftime alt) = 10%nat
    /\ strptime (strftime alt) = Some alt
    /\ diff_days alt s = 7.
Proof.
  intros Hs Hf Hd Hy.
  pose proof (strptime_valid _ _ Hs) as Vs.
  pose proof (strptime_valid _ _ Hf) as Vf.
  pose proof (add_days_7 s f Vs Vf Hd) as A.
  assert (B : toordinal s + 7 <= MAXORDINAL).
  { pose proof (ymd2ord_bounds _ _ _ Vf) as Bf. fold (toordinal f) in Bf.
    unfold diff_days in Hd. lia. }
  destruct (week_later_prints s Vs Hy B) as (V & Y & P & D).
  exists (fromordinal (toordinal s + 7)).
  split; [exact A|]. split; [|split; [|split]].
  - unfold get_neos_by_date_range.
    rewrite (check_format_parsed self s f Hs Hf). unfold check_range.
    replace (7 <? diff_days f s) with true by (symmetry; apply Z.ltb_lt; lia).
    rewrite Hs, A. reflexivity.
  - apply strftime_length; assumption.
  - exact P.
  - exact D.
Qed.

Lemma C2_range_rejected_witness :
  get_neos_by_date_range (offline (mkdate 2026 11 4))
    (mkNearEarthObjects None "2024-01-01" "2024-01-10")
  = ([], Raise (ValueError
                  "Please make sure the date range is at most 7 days. It is currently 9 days. 
                Try 2024-01-08 and below")).
Proof.
  destruct (C2_range_rejected (offline (mkdate 2026 11 4))
              (mkNearEarthObjects None "2024-01-01" "2024-01-10")
              (mkdate 2024 1 1) (mkdate 2024 1 10))
    as (alt & A & E & _).
  - reflexivity.
  - reflexivity.
  - vm_compute. reflexivity.
  - vm_compute. discriminate.
  - vm_compute in A. injection A as <-. exact E.
Defined.

(** C2, as the claim words it, fails before year 1000: the year is
    printed without its leading zero, so the date the message suggests
    is not of the form YYYY-MM-DD and does not parse. *)
Lemma C2_year_999_is_not_padded :
  strptime "0999-12-20" = Some (mkdate 999 12 20)
  /\ strptime "0999-12-31" = Some (mkdate 999 12 31)
  /\ diff_days (mkdate 999 12 31) (mkdate 999 12 20) = 11
  /\ get_neos_by_date_range (offline (mkdate 2026 11 4))
       (mkNearEarthObjects None "0999-12-20" "0999-12-31")
     = ([], Raise (ValueError
                     "Please make sure the date range is at most 7 days. It is currently 11 days. 
                Try 999-12-27 and below"))
  /\ String.length "999-12-27" = 9%nat
  /\ strptime "999-12-27" = None.
Proof. repeat split; vm_compute; reflexivity. Qed.

(** C3. When a date does not parse, the [try] statement prints the
    format message, which names the form YYYY-MM-DD, and completes, so
    control reaches the next statement; the method prints that message
    and nothing else, and whatever it raises is not the range error. *)
Theorem C3_parse_error_reported (w : world) (self : NearEarthObjects) :
  strptime (start_date self) = None \/ strptime (finish_date self) = None ->
  check_format self
  = ([Print "Date format does not seem correct. Please make sure it is in the form YYYY-MM-DD"],
     None)
  /\ fst (get_neos_by_date_range w self)
     = [Print "Date format does not seem correct. Please make sure it is in the form YYYY-MM-DD"]
  /\ forall d alt,
       snd (get_neos_by_date_range w self)
       <> Raise (ValueError (range_message d alt)).
Proof.
  intros H. pose proof (check_format_failed self H) as E.
  split; [exact E|].
  unfold get_neos_by_date_range. rewrite E. cbn.
  split; [reflexivity|]. intros d alt. discriminate.
Qed.

Lemma C3_parse_error_reported_witness :
  fst (get_neos_by_date_range (offline (mkdate 2026 11 4))
         (mkNearEarthObjects None "01/01/2024" "2024-01-07"))
  = [Print "Date format does not seem correct. Please make sure it is in the form YYYY-MM-DD"].
Proof.
  apply (C3_parse_error_reported (offline (mkdate 2026 11 4))
           (mkNearEarthObjects None "01/01/2024" "2024-01-07")).
  left. reflexivity.
Defined.

(** C9. When a date does not parse, the method prints the format
    message and then fails at the range check with the unbound local
    [day_diff_days]: it returns no table and fetches nothing. *)
Theorem C9_unbound_day_diff_days (w : world) (self : NearEarthObjects) :
  strptime (start_date self) = None \/ strptime (finish_date self) = None ->
  get_neos_by_date_range w self
  = ([Print format_message], Raise (UnboundLocalError "day_diff_days")).
Proof.
  intros H. unfold get_neos_by_date_range.
  rewrite (check_format_failed self H). reflexivity.
Qed.

Lemma C9_unbound_day_diff_days_witness :
  get_neos_by_date_range (offline (mkdate 2026 11 4))
    (mkNearEarthObjects None "2024-01-01" "2024-02-30")
  = ([Print format_message], Raise (UnboundLocalError "day_diff_days")).
Proof.
  apply (C9_unbound_day_diff_days (offline (mkdate 2026 11 4))
           (mkNearEarthObjects None "2024-01-01" "2024-02-30")).
  right. reflexivity.
Defined.

(** C10. When the start date or the finish date is [None], the
    constructor warns and stores today and today plus 7 days, printed as
    YYYY-MM-DD, for both dates, whatever the other argument was; the two
    strings read back as today and as the date 7 days later. The clock is
    in year 1000 or later and leaves room for the 7 days before year 9999
    ends. *)
Theorem C10_defaults_replace_both (w : world) (key start finish : option string) :
  start = None \/ finish = None ->
  valid (today w) = true ->
  1000 <= year (today w) ->
  toordinal (today w) + 7 <= MAXORDINAL ->
  exists later : date,
    add_days (today w) 7 = Some later
    /\ init w key start finish
       = ([Warn "Start Date or End date has not been supplied. 
            Using today's data as start date and 7 days in the future as end date"],
          Ok (mkNearEarthObjects key (strftime (today w)) (strftime later)))
    /\ strptime (strftime (today w)) = Some (today w)
    /\ strptime (strftime later) = Some later
    /\ diff_days later (today w) = 7.
Proof.
  intros H V Hy B.
  pose proof (ymd2ord_bounds _ _ _ V) as Bt. fold (toordinal (today w)) in Bt.
  destruct (week_later_prints (today w) V Hy B) as (_ & _ & P & D).
  assert (A : add_days (today w) 7
              = Some (fromordinal (toordinal (today w) + 7))).
  { unfold add_days.
    replace (0 <? toordinal (today w) + 7) with true
      by (symmetry; apply Z.ltb_lt; lia).
    replace (toordinal (today w) + 7 <=? MAXORDINAL) with true
      by (symmetry; apply Z.leb_le; lia).
    reflexivity. }
  exists (fromordinal (toordinal (today w) + 7)).
  split; [exact A|]. split; [|split; [|split]].
  - unfold init. rewrite A.
    destruct H as [-> | ->]; [reflexivity|]. destruct start; reflexivity.
  - apply strptime_strftime; assumption.
  - exact P.
  - exact D.
Qed.

Lemma C10_defaults_replace_both_witness :
  init (offline (mkdate 2026 11 4)) None (Some "2024-01-01") None
  = ([Warn "Start Date or End date has not been supplied. 
            Using today's data as start date and 7 days in the future as end date"],
     Ok (mkNearEarthObjects None "2026-11-04" "2026-11-11")).
Proof.
  destruct (C10_defaults_replace_both (offline (mkdate 2026 11 4)) None
              (Some "2024-01-01") None) as (later & A & E & _).
  - right. reflexivity.
  - reflexivity.
  - vm_compute. discriminate.
  - vm_compute. discriminate.
  - vm_compute in A. injection A as <-. exact E.
Defined.

End ValidationFacts.

(** ** The flattener *)

Module FlattenFacts.
Import Calendar Strptime Py Pandas Neo Helpers.

Lemma for_each_raise {A S : Type} (body : S -> A -> result S) (l : list A) (x : A) :
  In x l ->
  (forall s, exists e, body s x = Raise e) ->
  forall s, exists e, for_each body l s = Raise e.
Proof.
  intros Hin Hx. induction l as [|y l IH]; [contradiction|].
  intros s. cbn [for_each].
  destruct (body s y) as [s'|e] eqn:E; [|eauto].
  destruct Hin as [->|Hin]; [|apply IH; exact Hin].
  destruct (Hx s) as [e He]. congruence.
Qed.

Lemma subdict_missing d keys :
  existsb (fun k => negb (has_key k d)) keys = true ->
  exists k, In k keys /\ subdict (VDict d) keys = Raise (KeyError (VStr k)).
Proof.
  induction keys as [|k keys IH]; [discriminate|].
  cbn [existsb subdict getitem]. unfold has_key at 1.
  destruct (lookup k d) as [v|] eqn:E; cbn [negb orb bind].
  - intros H. destruct (IH H) as (k' & Hin & Hk'). exists k'.
    split; [right; exact Hin|]. rewrite Hk'. reflexivity.
  - intros _. exists k. split; [left|]; reflexivity.
Qed.

Lemma flatten_item_missing L r clean_df :
  lacks_general_field r = true ->
  exists k, In k unnested_general_keys
            /\ flatten_item L clean_df r = Raise (KeyError (VStr k)).
Proof.
  destruct r as [| | | | | |d]; try discriminate. cbn [lacks_general_field].
  intros H. destruct (subdict_missing d _ H) as (k & Hin & Hk).
  exists k. split; [exact Hin|].
  unfold flatten_item, combined_frame. rewrite Hk. reflexivity.
Qed.

Lemma In_records neos k l r :
  In (k, VList l) neos -> In r l -> In r (records neos).
Proof.
  intros Hd Hr. unfold records. apply in_flat_map.
  exists (k, VList l). split; [exact Hd|exact Hr].
Qed.

(** C6. When some object record of the payload lacks one of the general
    fields, the flattener raises: it returns no table, whatever the
    records before it were. *)
Theorem C6_missing_general_field_aborts (L : lib) (neos : list (string * value))
    (r : value) :
  In r (records neos) ->
  lacks_general_field r = true ->
  exists e, flatten L (VDict neos) = Raise e.
Proof.
  intros Hin Hr. unfold flatten. cbn [items bind].
  unfold records in Hin. apply in_flat_map in Hin as (kv & Hkv & Hrl).
  apply (for_each_raise _ _ kv Hkv). intros t.
  unfold flatten_date. destruct kv as [k v]. unfold records_of_date in Hrl.
  cbn [snd] in *. destruct v; try contradiction. cbn [iter bind].
  apply (for_each_raise _ _ r Hrl). intros t'.
  destruct (flatten_item_missing L r t' Hr) as (k' & _ & E). eauto.
Qed.

Lemma C6_missing_general_field_aborts_witness :
  exists e,
    flatten lib0
      (VDict [("2024-01-01", VList [record_example one_link [approach_a]]);
              ("2024-01-02",
               VList [record_example one_link [approach_a];
                      VDict [("id", VStr "2"); ("name", VStr "B")]])])
    = Raise e.
Proof.
  apply (C6_missing_general_field_aborts lib0 _
           (VDict [("id", VStr "2"); ("name", VStr "B")])).
  - vm_compute. right. right. left. reflexivity.
  - reflexivity.
Defined.



Lemma subdict_ext d1 d2 keys :
  (forall k, In k keys -> lookup k d1 = lookup k d2) ->
  subdict (VDict d1) keys = subdict (VDict d2) keys.
Proof.
  induction keys as [|k keys IH]; [reflexivity|].
  intros H. cbn [subdict getitem]. rewrite (H k (or_introl eq_refl)).
  rewrite IH; [reflexivity|]. intros k' Hk'. apply H. right. exact Hk'.
Qed.



(** *** One-row frames *)

Lemma thin_one_row r : thin (one_row r).
Proof.
  split; [apply le_n|]. unfold one_row. cbn [columns].
  apply Forall_forall. intros nc H. apply in_map_iff in H as (x & <- & _).
  apply le_n.
Qed.

Lemma thin_empty_frame : thin empty_frame.
Proof. split; [apply le_0_n|constructor]. Qed.

Lemma first_row_one_row r : first_row (one_row r) = r.
Proof.
  unfold first_row, one_row. cbn [columns]. rewrite map_map.
  induction r as [|[k c] r IH]; [reflexivity|].
  cbn [map]. rewrite IH. reflexivity.
Qed.

Lemma frame_rows_one_row r : frame_rows (one_row r) = [r].
Proof.
  transitivity [first_row (one_row r)]; [reflexivity|].
  rewrite first_row_one_row. reflexivity.
Qed.

Lemma pad_thin (c : list cell) :
  (List.length c <= 1)%nat -> pad 1 c = [nth 0 c None].
Proof.
  destruct c as [|x [|y c]]; cbn; intros H; [reflexivity|reflexivity|lia].
Qed.

Lemma max_thin fs :
  Forall thin fs -> Exists (fun f => nrows f = 1%nat) fs ->
  fold_right Nat.max 0%nat (map nrows fs) = 1%nat.
Proof.
  intros Ht Hex.
  assert (B : (fold_right Nat.max 0 (map nrows fs) <= 1)%nat).
  { clear Hex. induction Ht as [|f fs [Hf _] _ IH]; cbn [map fold_right]; lia. }
  assert (E : (1 <= fold_right Nat.max 0 (map nrows fs))%nat).
  { clear B Ht. induction Hex as [f fs Hf|f fs _ IH]; cbn [map fold_right]; lia. }
  lia.
Qed.

(** Side by side, frames of at most one row, one of which has a row,
    give the one-row frame of their first rows. *)
Lemma concat_thin fs :
  Forall thin fs -> Exists (fun f => nrows f = 1%nat) fs ->
  concat_columns fs = one_row (flat_map first_row fs).
Proof.
  intros Ht Hex. unfold concat_columns. rewrite (max_thin fs Ht Hex).
  unfold one_row. f_equal. clear Hex.
  induction Ht as [|f fs [_ Hf] _ IH]; [reflexivity|].
  cbn [flat_map]. rewrite map_app, IH. f_equal.
  unfold first_row. rewrite map_map. apply map_ext_in.
  intros nc Hin. cbn [fst snd]. f_equal.
  apply pad_thin. rewrite Forall_forall in Hf. exact (Hf nc Hin).
Qed.

(** *** The constructor on the shapes of the schema *)

Lemma cell_at0_scalar v : is_scalar v = true -> cell_at0 v = Ok (Some v).
Proof. destruct v as [| | | | |l|d]; try reflexivity; discriminate. Qed.

Lemma cells_at0_scalars d :
  scalar_values d = true ->
  cells_at0 d = Ok (map (fun kv => (fst kv, Some (snd kv))) d).
Proof.
  induction d as [|[k v] d IH]; [reflexivity|].
  unfold scalar_values. cbn [forallb snd]. intros H.
  apply andb_prop in H as [Hv Hd]. cbn [cells_at0].
  rewrite (cell_at0_scalar v Hv). cbn [bind].
  rewrite (IH Hd). reflexivity.
Qed.

Lemma rename_strings prefix (cs : list (string * cell)) :
  rename prefix (map (fun kc => (LStr (fst kc), snd kc)) cs)
  = Ok (map (fun kc => ((prefix ++ fst kc)%string, snd kc)) cs).
Proof.
  induction cs as [|[k c] cs IH]; [reflexivity|].
  cbn [map rename add_prefix bind fst snd]. rewrite IH. reflexivity.
Qed.

(** A unit table becomes one column per unit, named with the prefix. *)
Lemma unit_frame L prefix fields :
  scalar_values fields = true ->
  bind (DataFrame_index0 L (VDict fields)) (rename prefix)
  = Ok (unit_cells prefix fields).
Proof.
  intros H. cbn [DataFrame_index0]. rewrite (cells_at0_scalars fields H).
  cbn [bind]. rewrite rename_strings, map_map. reflexivity.
Qed.

(** *** The four frames of one object *)

Lemma size_loop L units : forall acc,
  thin acc ->
  forallb (fun kv => match snd kv with
                     | VDict fields => scalar_values fields
                     | _ => false
                     end) units = true ->
  exists f, for_each (size_step L) units acc = Ok f
            /\ thin f
            /\ first_row f = (first_row acc ++ size_cells units)%list.
Proof.
  induction units as [|[k v] units IH]; intros acc Hacc H.
  - exists acc. cbn [for_each size_cells flat_map]. rewrite app_nil_r. auto.
  - cbn [forallb snd] in H. apply andb_prop in H as [Hv Hu].
    destruct v as [| | | | | |fields]; try discriminate.
    cbn [for_each]. unfold size_step at 1.
    pose proof (unit_frame L ("size_" ++ k ++ "_") fields Hv) as U.
    unfold bind at 1 in U. unfold bind at 1 2.
    destruct (DataFrame_index0 L (VDict fields)) as [mini|e]; [|discriminate].
    rewrite U.
    rewrite (concat_thin [acc; one_row (unit_cells ("size_" ++ k ++ "_") fields)]).
    + destruct (IH (one_row (flat_map first_row
                       [acc; one_row (unit_cells ("size_" ++ k ++ "_") fields)]))
                  (thin_one_row _) Hu) as (f & Ef & Tf & Rf).
      exists f. split; [exact Ef|]. split; [exact Tf|].
      rewrite Rf, first_row_one_row. cbn [flat_map size_cells fst snd].
      rewrite first_row_one_row, app_nil_r, app_assoc. reflexivity.
    + apply Forall_cons; [exact Hacc|].
      apply Forall_cons; [apply thin_one_row|apply Forall_nil].
    + right. left. reflexivity.
Qed.

Lemma size_frame_schema L units :
  forallb (fun kv => match snd kv with
                     | VDict fields => scalar_values fields
                     | _ => false
                     end) units = true ->
  exists f, size_frame L (VDict units) = Ok f
            /\ thin f /\ first_row f = size_cells units.
Proof.
  intros H. unfold size_frame. cbn [items bind].
  destruct (size_loop L units empty_frame thin_empty_frame H) as (f & E & T & R).
  exists f. auto.
Qed.

Lemma nested_step_schema L a ap acc :
  thin acc -> unit_table ap a = true ->
  nested_step L (VDict a) acc ap
  = Ok (one_row (nested_cells ap a ++ first_row acc)%list).
Proof.
  intros Hacc H. unfold unit_table in H. unfold nested_step, nested_cells.
  cbn [getitem].
  destruct (lookup ap a) as [[| | | | | |units]|]; try discriminate.
  cbn [bind].
  pose proof (unit_frame L (ap ++ "_") units H) as U.
  unfold bind at 1 in U. unfold bind at 1 2.
  destruct (DataFrame_index0 L (VDict units)) as [mini|e]; [|discriminate].
  rewrite U. rewrite concat_thin.
  - cbn [flat_map]. rewrite first_row_one_row, app_nil_r. reflexivity.
  - apply Forall_cons; [apply thin_one_row|].
    apply Forall_cons; [exact Hacc|apply Forall_nil].
  - left. reflexivity.
Qed.

Lemma nested_frame_schema L a :
  forallb (fun k => unit_table k a) nested_approach_keys = true ->
  nested_frame L (VDict a)
  = Ok (one_row (nested_cells "miss_distance" a
                 ++ nested_cells "relative_velocity" a)%list).
Proof.
  cbn [forallb nested_approach_keys]. intros H.
  apply andb_prop in H as [Hv H]. apply andb_prop in H as [Hm _].
  unfold nested_frame. cbn [for_each nested_approach_keys].
  rewrite (nested_step_schema L a "relative_velocity" empty_frame
             thin_empty_frame Hv).
  rewrite (nested_step_schema L a "miss_distance" _ (thin_one_row _) Hm).
  rewrite first_row_one_row. cbn [first_row empty_frame columns map].
  rewrite app_nil_r. reflexivity.
Qed.

Lemma approach_schema a :
  forallb (fun k => scalar_field k a) unnested_approach_keys = true ->
  bind (subdict (VDict a) unnested_approach_keys) cells_at0
  = Ok (approach_cells a).
Proof.
  cbn [forallb unnested_approach_keys]. unfold scalar_field, approach_cells.
  intros H. apply andb_prop in H as [H1 H]. apply andb_prop in H as [H2 _].
  cbn [subdict getitem unnested_approach_keys map].
  destruct (lookup "close_approach_date_full" a) as [v1|]; [|discriminate].
  destruct (lookup "orbiting_body" a) as [v2|]; [|discriminate].
  cbn [bind cells_at0]. rewrite (cell_at0_scalar v1 H1), (cell_at0_scalar v2 H2).
  reflexivity.
Qed.

Lemma subdict_scalars d keys :
  forallb (fun k => scalar_field k d) keys = true ->
  exists rest, subdict (VDict d) keys = Ok rest
               /\ scalar_values rest = true
               /\ map fst rest = keys
               /\ map (fun kv => (fst kv, Some (snd kv))) rest
                  = map (fun k => (k, lookup k d)) keys.
Proof.
  induction keys as [|k keys IH]; intros H.
  - exists []. repeat split; reflexivity.
  - cbn [forallb] in H. apply andb_prop in H as [Hk Hks].
    destruct (IH Hks) as (rest & E & S & F & M).
    unfold scalar_field in Hk. cbn [subdict getitem].
    destruct (lookup k d) as [v|] eqn:Ek; [|discriminate].
    exists ((k, v) :: rest). cbn [bind]. rewrite E. cbn [bind].
    split; [reflexivity|]. split; [|split].
    + unfold scalar_values in *. cbn [forallb snd]. rewrite Hk, S. reflexivity.
    + cbn [map fst]. rewrite F. reflexivity.
    + cbn [map fst snd]. rewrite M, Ek. reflexivity.
Qed.

Lemma scalar_shape v :
  is_scalar v = true ->
  list_len v = [] /\ dict_keys v = [] /\ is_dict v = false
  /\ forall idx n, column_of idx n v = repeat (Some v) n.
Proof. destruct v; try discriminate; repeat split; reflexivity. Qed.

Lemma scalars_shape rest :
  scalar_values rest = true ->
  flat_map list_len (map snd rest) = []
  /\ existsb is_dict (map snd rest) = false
  /\ (forall acc, fold_left union_keys (map dict_keys (map snd rest)) acc = acc)
  /\ forall idx n,
       map (fun kv => (fst kv, column_of idx n (snd kv))) rest
       = map (fun kv => (fst kv, repeat (Some (snd kv)) n)) rest.
Proof.
  induction rest as [|[k v] rest IH]; intros H.
  - repeat split; reflexivity.
  - unfold scalar_values in H. cbn [forallb snd] in H.
    apply andb_prop in H as [Hv Hr].
    destruct (IH Hr) as (A & B & C & D).
    destruct (scalar_shape v Hv) as (A' & B' & C' & D').
    cbn [map snd fst flat_map existsb fold_left].
    rewrite A, A', B, C', B'. repeat split; try reflexivity.
    + intros acc. cbn [union_keys fold_left]. apply C.
    + intros idx n. rewrite D, D'. reflexivity.
Qed.

(** The general frame: the index comes from the one [dict] among the
    values, the links, and has as many rows as there are links. *)
Lemma DataFrame_links k0 ls rest :
  scalar_values rest = true ->
  (List.length ls <= 1)%nat ->
  exists f, DataFrame ((k0, VDict ls) :: rest) = Ok f
            /\ thin f
            /\ nrows f = List.length ls
            /\ first_row f
               = match ls with
                 | [(_, v)] =>
                     (k0, Some v) :: map (fun kv => (fst kv, Some (snd kv))) rest
                 | _ => (k0, None) :: map (fun kv => (fst kv, None)) rest
                 end.
Proof.
  intros S Hl. destruct (scalars_shape rest S) as (A & B & C & D).
  unfold DataFrame.
  cbn [map snd fst flat_map list_len app existsb is_dict orb fold_left dict_keys].
  rewrite A, C, D.
  destruct ls as [|[k v] [|kv ls]]; [| |cbn in Hl; lia].
  - eexists. split; [reflexivity|].
    cbn [map union_keys fold_left List.length column_of].
    split; [|split; [reflexivity|]].
    + split; [apply le_0_n|]. cbn [columns]. constructor; [apply le_0_n|].
      apply Forall_forall. intros nc Hin.
      apply in_map_iff in Hin as (x & <- & _). apply le_0_n.
    + unfold first_row. cbn [columns map fst snd nth]. rewrite map_map.
      reflexivity.
  - eexists. split; [reflexivity|].
    cbn [map fst union_keys fold_left mem existsb app List.length lookup
         column_of].
    rewrite String.eqb_refl.
    split; [|split; [reflexivity|]].
    + split; [apply le_n|]. cbn [columns]. constructor; [apply le_n|].
      apply Forall_forall. intros nc Hin.
      apply in_map_iff in Hin as (x & <- & _). apply le_n.
    + unfold first_row. cbn [columns map fst snd nth]. rewrite map_map.
      reflexivity.
Qed.

Lemma general_frame_schema d :
  match lookup "links" d with
  | Some (VDict []) | Some (VDict [_]) => true
  | _ => false
  end = true ->
  forallb (fun k => scalar_field k d) (tl unnested_general_keys) = true ->
  exists f, bind (subdict (VDict d) unnested_general_keys) DataFrame = Ok f
            /\ thin f /\ first_row f = general_cells d.
Proof.
  intros Hl Hs. destruct (subdict_scalars d _ Hs) as (rest & E & S & F & M).
  unfold general_cells.
  change unnested_general_keys with ("links" :: tl unnested_general_keys) at 1.
  cbn [subdict getitem].
  destruct (lookup "links" d) as [[| | | | | |ls]|]; try discriminate.
  cbn [bind]. rewrite E. cbn [bind].
  assert (Hlen : (List.length ls <= 1)%nat)
    by (destruct ls as [|? [|]]; [cbn; lia|cbn; lia|discriminate]).
  destruct (DataFrame_links "links" ls rest S Hlen) as (f & Ef & Tf & _ & Rf).
  exists f. split; [exact Ef|]. split; [exact Tf|]. rewrite Rf.
  destruct ls as [|[k v] [|]]; [|rewrite M; reflexivity|discriminate].
  change unnested_general_keys with ("links" :: tl unnested_general_keys).
  cbn [map]. f_equal. rewrite <- F, map_map. reflexivity.
Qed.

(** On a record of the schema the frame of the object is the one row
    the specification describes. *)
Lemma combined_frame_schema L r :
  schema_record r = true ->
  combined_frame L r = Ok (one_row (record_row r)).
Proof.
  destruct r as [| | | | | |d]; try discriminate.
  cbn [schema_record]. intros H.
  apply andb_prop in H as [H _]. apply andb_prop in H as [H Ha].
  apply andb_prop in H as [H Hsz]. apply andb_prop in H as [Hl Hg].
  destruct (general_frame_schema d Hl Hg) as (g & Eg & Tg & Rg).
  unfold combined_frame. unfold bind at 1 in Eg. unfold bind at 1 2.
  destruct (subdict (VDict d) unnested_general_keys) as [tmp|e]; [|discriminate].
  rewrite Eg. cbn [getitem record_row]. unfold item_row, first_approach.
  destruct (lookup "estimated_diameter" d) as [[| | | | | |units]|];
    try discriminate.
  cbn [bind].
  destruct (size_frame_schema L units Hsz) as (s & Es & Ts & Rs).
  rewrite Es. cbn [bind].
  destruct (lookup "close_approach_data" d) as [[| | | | |[|[| | | | | |a] l]|]|];
    try discriminate.
  apply andb_prop in Ha as [Hap Hn].
  cbn [bind getitem0].
  pose proof (approach_schema a Hap) as Ea. unfold bind at 1 in Ea.
  unfold bind at 1 2.
  destruct (subdict (VDict a) unnested_approach_keys) as [tmp2|e]; [|discriminate].
  rewrite Ea. rewrite (nested_frame_schema L a Hn). cbn [bind].
  rewrite concat_thin.
  - cbn [flat_map]. rewrite Rg, Rs, !first_row_one_row, app_nil_r. reflexivity.
  - repeat (apply Forall_cons; [first [assumption|apply thin_one_row]|]).
    apply Forall_nil.
  - right. right. left. reflexivity.
Qed.

(** *** Stacking the rows *)

Lemma mem_app k a b : mem k (a ++ b) = mem k a || mem k b.
Proof. unfold mem. apply existsb_app. Qed.

Lemma mem_In k l : In k l -> mem k l = true.
Proof.
  intros H. unfold mem. apply existsb_exists. exists k.
  split; [exact H|apply String.eqb_refl].
Qed.

Lemma nodupb_snoc a k :
  nodupb a = true -> mem k a = false -> nodupb (a ++ [k]) = true.
Proof.
  induction a as [|x a IH]; intros Ha Hk; [reflexivity|].
  cbn [nodupb app] in *. apply andb_prop in Ha as [Hx Ha].
  unfold mem in Hk. cbn [existsb] in Hk. apply orb_false_elim in Hk as [Hkx Hk].
  rewrite mem_app. cbn [mem existsb]. unfold mem in Hx, IH.
  apply negb_true_iff in Hx. unfold mem. rewrite Hx.
  rewrite String.eqb_sym, Hkx. cbn [orb negb andb]. apply IH; assumption.
Qed.

Lemma nodupb_union acc ks :
  nodupb acc = true -> nodupb (union_keys acc ks) = true.
Proof.
  unfold union_keys. revert acc.
  induction ks as [|k ks IH]; intros acc H; [exact H|].
  cbn [fold_left]. apply IH.
  destruct (mem k acc) eqn:E; [exact H|apply nodupb_snoc; assumption].
Qed.

Lemma flatten_item_schema L t r :
  schema_record r = true -> nodupb (tcolumns t) = true ->
  flatten_item L t r
  = Ok (mktable (union_keys (tcolumns t) (map fst (record_row r)))
                (trows t ++ [record_row r])).
Proof.
  intros Hr Ht. unfold flatten_item.
  rewrite (combined_frame_schema L r Hr). cbn [bind]. unfold concat_rows.
  assert (N : map fst (columns (one_row (record_row r))) = map fst (record_row r)).
  { unfold one_row. cbn [columns]. rewrite map_map. reflexivity. }
  rewrite N, Ht, frame_rows_one_row.
  destruct r as [| | | | | |d]; try discriminate.
  cbn [schema_record] in Hr. apply andb_prop in Hr as [_ Hn].
  rewrite Hn. reflexivity.
Qed.

Lemma flatten_records_schema L l : forall t,
  forallb schema_record l = true -> nodupb (tcolumns t) = true ->
  exists t', for_each (flatten_item L) l t = Ok t'
             /\ trows t' = (trows t ++ map record_row l)%list
             /\ nodupb (tcolumns t') = true.
Proof.
  induction l as [|r l IH]; intros t Hl Ht.
  - exists t. cbn [for_each map]. rewrite app_nil_r. auto.
  - cbn [forallb] in Hl. apply andb_prop in Hl as [Hr Hl].
    cbn [for_each]. rewrite (flatten_item_schema L t r Hr Ht).
    destruct (IH (mktable (union_keys (tcolumns t) (map fst (record_row r)))
                          (trows t ++ [record_row r])) Hl
                 (nodupb_union (tcolumns t) (map fst (record_row r)) Ht))
      as (t' & E & R & N).
    exists t'. split; [exact E|]. split; [|exact N].
    rewrite R. cbn [trows map]. rewrite <- app_assoc. reflexivity.
Qed.

Lemma flatten_dates_schema L neos : forall t,
  schema_payload neos = true -> nodupb (tcolumns t) = true ->
  exists t', for_each (flatten_date L) neos t = Ok t'
             /\ trows t' = (trows t ++ map record_row (records neos))%list
             /\ nodupb (tcolumns t') = true.
Proof.
  unfold schema_payload, all_lists_of.
  induction neos as [|[k v] neos IH]; intros t Hp Ht.
  - exists t. cbn [for_each records flat_map map]. rewrite app_nil_r. auto.
  - cbn [forallb snd] in Hp. apply andb_prop in Hp as [Hv Hp].
    destruct v as [| | | | |l|]; try discriminate.
    cbn [for_each]. unfold flatten_date at 1. cbn [snd iter bind].
    destruct (flatten_records_schema L l t Hv Ht) as (t1 & E1 & R1 & N1).
    rewrite E1. destruct (IH t1 Hp N1) as (t' & E & R & N).
    exists t'. split; [exact E|]. split; [|exact N].
    rewrite R, R1. unfold records. cbn [flat_map].
    unfold records_of_date at 2. cbn [snd].
    rewrite map_app, app_assoc. reflexivity.
Qed.

(** On a payload of the schema the flattener returns the rows of its
    records, in the order of the payload. *)
Lemma flatten_schema L neos :
  schema_payload neos = true ->
  exists t, flatten L (VDict neos) = Ok t
            /\ trows t = map record_row (records neos).
Proof.
  intros H. unfold flatten. cbn [items bind].
  destruct (flatten_dates_schema L neos empty_table H eq_refl) as (t & E & R & _).
  exists t. split; [exact E|exact R].
Qed.

(** *** The claims on the flattener *)

Lemma append_assoc (a b c : string) : ((a ++ b) ++ c = a ++ (b ++ c))%string.
Proof. induction a as [|x a IH]; [reflexivity|]. cbn [append]. rewrite IH. reflexivity. Qed.

Lemma row_get_In (r : row) name c :
  nodupb (map fst r) = true -> In (name, c) r -> row_get name r = c.
Proof.
  induction r as [|[k c0] r IH]; [contradiction|].
  cbn [map fst nodupb row_get]. intros Hn Hin.
  apply andb_prop in Hn as [Hk Hn]. apply negb_true_iff in Hk.
  destruct Hin as [E|Hin].
  - injection E as -> ->. rewrite String.eqb_refl. reflexivity.
  - destruct (String.eqb name k) eqn:E; [|exact (IH Hn Hin)].
    apply String.eqb_eq in E. subst k.
    rewrite (mem_In name (map fst r)) in Hk; [discriminate|].
    apply in_map_iff. exists (name, c). split; [reflexivity|exact Hin].
Qed.

Lemma schema_records neos :
  schema_payload neos = true -> forallb schema_record (records neos) = true.
Proof.
  unfold schema_payload, all_lists_of, records.
  induction neos as [|[k v] neos IH]; [reflexivity|].
  cbn [forallb snd flat_map]. intros H. apply andb_prop in H as [Hv H].
  destruct v as [| | | | |l|]; try discriminate.
  unfold records_of_date at 1. cbn [snd].
  rewrite forallb_app, Hv, (IH H). reflexivity.
Qed.

(** C4, as the code has it. On a payload of the feed schema (each
    record with at most one link, scalar general fields, unit tables of
    scalars and distinct column names) the table has one row per object
    record. *)
Theorem C4_one_row_per_record (L : lib) (neos : list (string * value)) :
  schema_payload neos = true ->
  exists t, flatten L (VDict neos) = Ok t
            /\ List.length (trows t) = List.length (records neos).
Proof.
  intros H. destruct (flatten_schema L neos H) as (t & E & R).
  exists t. split; [exact E|]. rewrite R. apply length_map.
Qed.

Lemma C4_one_row_per_record_witness :
  exists t,
    flatten lib0
      (VDict [("2024-01-01", VList [record_example one_link [approach_a]]);
              ("2024-01-02", VList [record_example (VDict []) [approach_b];
                                    record_example one_link [approach_a; approach_b]])])
    = Ok t
    /\ List.length (trows t) = 3%nat.
Proof.
  apply (C4_one_row_per_record lib0
           [("2024-01-01", VList [record_example one_link [approach_a]]);
            ("2024-01-02", VList [record_example (VDict []) [approach_b];
                                  record_example one_link [approach_a; approach_b]])]).
  reflexivity.
Defined.

(** C4, as the claim words it, fails: a record that has every field
    the flattener reads, a non-empty close-approach list and two links
    gives two rows, so one object record makes a table of two rows. *)
Lemma C4_two_links_two_rows :
  claimed_well_formed [("2024-01-01", VList [record_example two_links [approach_a]])]
  = true
  /\ List.length (records [("2024-01-01",
                            VList [record_example two_links [approach_a]])]) = 1%nat
  /\ forall L, exists t,
       flatten L (VDict [("2024-01-01",
                          VList [record_example two_links [approach_a]])]) = Ok t
       /\ List.length (trows t) = 2%nat.
Proof.
  split; [reflexivity|]. split; [reflexivity|].
  intros L. eexists. split; reflexivity.
Qed.


Example row_of_record_example :
  combined_frame lib0 (record_example one_link [approach_a; approach_b])
  = Ok (one_row
          [("links", Some (VStr "http://x/1")); ("id", Some (VStr "1"));
           ("name", Some (VStr "A")); ("nasa_jpl_url", Some (VStr "u"));
           ("absolute_magnitude_h", Some (VFloat (S754_finite false 5657825 (-18))));
           ("is_potentially_hazardous_asteroid", Some (VBool false));
           ("is_sentry_object", Some (VBool false));
           ("size_kilometers_estimated_diameter_min",
            Some (VFloat (S754_finite false 1 (-3))));
           ("size_kilometers_estimated_diameter_max",
            Some (VFloat (S754_finite false 1 (-2))));
           ("close_approach_date_full", Some (VStr "2024-Jan-01 00:00"));
           ("orbiting_body", Some (VStr "Earth"));
           ("miss_distance_kilometers", Some (VStr "50000"));
           ("relative_velocity_kilometers_per_second", Some (VStr "10.5"))]).
Proof. reflexivity. Qed.


(** The example of the specification: one record, no link. *)
Example flatten_spec_example :
  exists t,
    flatten lib0 (VDict [("2024-01-01",
                          VList [record_example (VDict []) [approach_a]])]) = Ok t
    /\ map (fun r => (row_get "size_kilometers_estimated_diameter_min" r,
                      row_get "relative_velocity_kilometers_per_second" r,
                      row_get "miss_distance_kilometers" r,
                      row_get "orbiting_body" r)) (trows t)
       = [(Some (VFloat (S754_finite false 1 (-3))), Some (VStr "10.5"),
           Some (VStr "50000"), Some (VStr "Earth"))].
Proof. eexists. split; reflexivity. Qed.
End FlattenFacts.

(** ** Further properties of the date check and of the fetch *)

Module RequestFacts.
Import Calendar Strptime Py Pandas Neo Script Helpers.
Import CalendarFacts StrptimeFacts ValidationFacts FlattenFacts.

(** The range check has no lower bound: from 7 days down, negative
    spans included, the method is its fetch stage. *)
Lemma range_ok_fetches w self s f :
  strptime (start_date self) = Some s ->
  strptime (finish_date self) = Some f ->
  diff_days f s <= 7 ->
  get_neos_by_date_range w self = fetch_and_flatten w self.
Proof.
  intros Hs Hf Hd. unfold get_neos_by_date_range.
  rewrite (check_format_parsed self s f Hs Hf). unfold check_range.
  replace (7 <? diff_days f s) with false by (symmetry; apply Z.ltb_ge; lia).
  destruct (fetch_and_flatten w self). reflexivity.
Qed.

(** A finish date before the start date is not rejected: the range
    check lets it through and the method fetches with the inverted dates
    in the URL. *)
Theorem inverted_range_is_fetched (w : world) (self : NearEarthObjects)
    (s f : date) :
  strptime (start_date self) = Some s ->
  strptime (finish_date self) = Some f ->
  diff_days f s < 0 ->
  check_range self (snd (check_format self)) = Ok tt
  /\ get_neos_by_date_range w self = fetch_and_flatten w self
  /\ fst (get_neos_by_date_range w self)
     = [Get ("https://api.nasa.gov/neo/rest/v1/feed?start_date="
             ++ start_date self ++ "&end_date=" ++ finish_date self
             ++ "&api_key=" ++ show_key (api_key self))%string].
Proof.
  intros Hs Hf Hd.
  rewrite (range_ok_fetches w self s f Hs Hf ltac:(lia)).
  rewrite (check_format_parsed self s f Hs Hf). cbn [snd]. unfold check_range.
  replace (7 <? diff_days f s) with false by (symmetry; apply Z.ltb_ge; lia).
  repeat split.
Qed.

Lemma inverted_range_is_fetched_witness :
  fst (get_neos_by_date_range (offline (mkdate 2026 11 4))
         (mkNearEarthObjects (Some "KEY") "2024-03-10" "2024-01-01"))
  = [Get "https://api.nasa.gov/neo/rest/v1/feed?start_date=2024-03-10&end_date=2024-01-01&api_key=KEY"].
Proof.
  apply (inverted_range_is_fetched (offline (mkdate 2026 11 4))
           (mkNearEarthObjects (Some "KEY") "2024-03-10" "2024-01-01")
           (mkdate 2024 3 10) (mkdate 2024 1 1)).
  - reflexivity.
  - reflexivity.
  - vm_compute. reflexivity.
Defined.

Lemma too_long_range_raises w self s f :
  strptime (start_date self) = Some s ->
  strptime (finish_date self) = Some f ->
  7 < diff_days f s ->
  get_neos_by_date_range w self
  = ([], Raise (ValueError
                  (range_message (diff_days f s)
                                 (strftime (fromordinal (toordinal s + 7))))))
  /\ valid (fromordinal (toordinal s + 7)) = true.
Proof.
  intros Hs Hf Hd.
  pose proof (strptime_valid _ _ Hs) as Vs.
  pose proof (strptime_valid _ _ Hf) as Vf.
  split.
  - unfold get_neos_by_date_range.
    rewrite (check_format_parsed self s f Hs Hf). unfold check_range.
    replace (7 <? diff_days f s) with true by (symmetry; apply Z.ltb_lt; lia).
    rewrite Hs, (add_days_7 s f Vs Vf Hd). reflexivity.
  - apply fromordinal_valid.
    pose proof (ymd2ord_bounds _ _ _ Vs) as Bs.
    pose proof (ymd2ord_bounds _ _ _ Vf) as Bf.
    fold (toordinal s) in Bs. fold (toordinal f) in Bf.
    unfold diff_days in Hd. lia.
Qed.

(** The end date the range error suggests is one the method accepts:
    with it as finish date the range check passes and the fetch runs.
    The start year is taken from 1000 on, where every platform prints
    the year on four digits. *)
Theorem suggested_end_date_is_accepted (w : world) (self : NearEarthObjects)
    (s f : date) :
  strptime (start_date self) = Some s ->
  strptime (finish_date self) = Some f ->
  7 < diff_days f s ->
  1000 <= year s ->
  exists alt : date,
    get_neos_by_date_range w self
    = ([], Raise (ValueError (range_message (diff_days f s) (strftime alt))))
    /\ let retry := mkNearEarthObjects (api_key self) (start_date self)
                                       (strftime alt) in
       get_neos_by_date_range w retry = fetch_and_flatten w retry
       /\ fst (get_neos_by_date_range w retry)
          = [Get (neo_date_range_url retry)].
Proof.
  intros Hs Hf Hd Hy.
  destruct (too_long_range_raises w self s f Hs Hf Hd) as (E & V).
  assert (P : strptime (strftime (fromordinal (toordinal s + 7)))
              = Some (fromordinal (toordinal s + 7))).
  { apply strptime_strftime; [exact V|].
    pose proof (year_mono s _ (strptime_valid _ _ Hs) V) as M.
    rewrite toordinal_fromordinal in M. lia. }
  assert (D : diff_days (fromordinal (toordinal s + 7)) s = 7)
    by (unfold diff_days; rewrite toordinal_fromordinal; lia).
  set (alt := fromordinal (toordinal s + 7)) in *.
  exists alt. split; [exact E|]. cbv zeta.
  assert (G : get_neos_by_date_range w
                (mkNearEarthObjects (api_key self) (start_date self) (strftime alt))
              = fetch_and_flatten w
                  (mkNearEarthObjects (api_key self) (start_date self) (strftime alt))).
  { apply (range_ok_fetches w _ s alt); cbn [start_date finish_date];
      [exact Hs|exact P|lia]. }
  split; [exact G|]. rewrite G. reflexivity.
Qed.

Lemma suggested_end_date_is_accepted_witness :
  exists alt : date,
    get_neos_by_date_range (offline (mkdate 2026 11 4))
      (mkNearEarthObjects None "2024-02-25" "2024-03-10")
    = ([], Raise (ValueError
                    (range_message (diff_days (mkdate 2024 3 10) (mkdate 2024 2 25))
                                   (strftime alt))))
    /\ let retry := mkNearEarthObjects None "2024-02-25" (strftime alt) in
       get_neos_by_date_range (offline (mkdate 2026 11 4)) retry
       = fetch_and_flatten (offline (mkdate 2026 11 4)) retry
       /\ fst (get_neos_by_date_range (offline (mkdate 2026 11 4)) retry)
          = [Get (neo_date_range_url retry)].
Proof.
  apply (suggested_end_date_is_accepted (offline (mkdate 2026 11 4))
           (mkNearEarthObjects None "2024-02-25" "2024-03-10")
           (mkdate 2024 2 25) (mkdate 2024 3 10)).
  - reflexivity.
  - reflexivity.
  - vm_compute. reflexivity.
  - vm_compute. discriminate.
Defined.


(** Today and the day 7 days later, printed by [strftime], are read
    back by [strptime] as dates 7 days apart. *)
Lemma week_from_today now :
  valid now = true ->
  1000 <= year now ->
  toordinal now + 7 <= MAXORDINAL ->
  add_days now 7 = Some (fromordinal (toordinal now + 7))
  /\ strptime (strftime now) = Some now
  /\ strptime (strftime (fromordinal (toordinal now + 7)))
     = Some (fromordinal (toordinal now + 7))
  /\ diff_days (fromordinal (toordinal now + 7)) now = 7.
Proof.
  intros V Hy B.
  pose proof (ymd2ord_bounds _ _ _ V) as Bt. fold (toordinal now) in Bt.
  assert (Vl : valid (fromordinal (toordinal now + 7)) = true)
    by (apply fromordinal_valid; lia).
  assert (Yl : 1000 <= year (fromordinal (toordinal now + 7))).
  { pose proof (year_mono now _ V Vl) as M.
    rewrite toordinal_fromordinal in M. lia. }
  split; [|split; [|split]].
  - unfold add_days.
    replace (0 <? toordinal now + 7) with true by (symmetry; apply Z.ltb_lt; lia).
    replace (toordinal now + 7 <=? MAXORDINAL) with true
      by (symmetry; apply Z.leb_le; lia).
    reflexivity.
  - apply strptime_strftime; assumption.
  - apply strptime_strftime; assumption.
  - unfold diff_days. rewrite toordinal_fromordinal. lia.
Qed.

(** An object built with a missing date passes its own date check:
    the constructor's defaults parse, span exactly 7 days, and the call
    warns once and then fetches the week that starts today. The clock is
    taken from year 1000 on, where every platform prints the year on
    four digits. *)
Theorem defaults_pass_the_date_check (w : world) (api start finish : option string) :
  start = None \/ finish = None ->
  valid (today w) = true ->
  1000 <= year (today w) ->
  toordinal (today w) + 7 <= MAXORDINAL ->
  let self := mkNearEarthObjects api (strftime (today w))
                (strftime (fromordinal (toordinal (today w) + 7))) in
  request w api start finish
  = (Warn missing_dates_warning :: [Get (neo_date_range_url self)],
     snd (fetch_and_flatten w self)).
Proof.
  intros H V Hy B self.
  destruct (week_from_today (today w) V Hy B) as (A & Ps & Pf & D).
  subst self. unfold request.
  set (self := mkNearEarthObjects api (strftime (today w))
                 (strftime (fromordinal (toordinal (today w) + 7)))).
  replace (init w api start finish)
    with ([Warn missing_dates_warning], @Ok NearEarthObjects self).
  - rewrite (range_ok_fetches w self (today w)
               (fromordinal (toordinal (today w) + 7)) Ps Pf ltac:(lia)).
    reflexivity.
  - unfold init. rewrite A.
    destruct H as [-> | ->]; [reflexivity|]. destruct start; reflexivity.
Qed.

Lemma defaults_pass_the_date_check_witness :
  request (offline (mkdate 2026 12 28)) (Some "KEY") None (Some "1999-01-01")
  = ([Warn missing_dates_warning;
      Get "https://api.nasa.gov/neo/rest/v1/feed?start_date=2026-12-28&end_date=2027-01-04&api_key=KEY"],
     Raise RequestException).
Proof.
  apply (defaults_pass_the_date_check (offline (mkdate 2026 12 28)) (Some "KEY")
           None (Some "1999-01-01")).
  - left. reflexivity.
  - reflexivity.
  - vm_compute. discriminate.
  - vm_compute. discriminate.
Defined.

(** The first request of the script passes the date check: the dates
    it prints from the clock parse and span 7 days, so the call fetches
    once, without warning, from today to today plus 7 days. The clock is
    taken from year 1000 on, where the year is printed on four digits. *)
Theorem script_first_request_is_fetched (w : world) (api : option string) :
  valid (today w) = true ->
  1000 <= year (today w) ->
  toordinal (today w) + 7 <= MAXORDINAL ->
  exists later : date,
    add_days (today w) 7 = Some later
    /\ neos_now w api
       = ([Get ("https://api.nasa.gov/neo/rest/v1/feed?start_date="
                ++ strftime (today w) ++ "&end_date=" ++ strftime later
                ++ "&api_key=" ++ show_key api)%string],
          snd (fetch_and_flatten w
                 (mkNearEarthObjects api (strftime (today w)) (strftime later)))).
Proof.
  intros V Hy B.
  destruct (week_from_today (today w) V Hy B) as (A & Ps & Pf & D).
  exists (fromordinal (toordinal (today w) + 7)). split; [exact A|].
  unfold neos_now, request. rewrite A. cbn [init].
  rewrite (range_ok_fetches w
             (mkNearEarthObjects api (strftime (today w))
                (strftime (fromordinal (toordinal (today w) + 7))))
             (today w) (fromordinal (toordinal (today w) + 7))
             Ps Pf ltac:(lia)).
  reflexivity.
Qed.

Lemma script_first_request_is_fetched_witness :
  neos_now (offline (mkdate 2028 2 25)) None
  = ([Get "https://api.nasa.gov/neo/rest/v1/feed?start_date=2028-02-25&end_date=2028-03-03&api_key=None"],
     Raise RequestException).
Proof.
  destruct (script_first_request_is_fetched (offline (mkdate 2028 2 25)) None)
    as (later & A & E).
  - reflexivity.
  - vm_compute. discriminate.
  - vm_compute. discriminate.
  - vm_compute in A. injection A as <-. exact E.
Defined.

(** A response whose status is not 200 ends the call with the status
    error, which carries the code; the body is not looked at. *)
Theorem bad_status_raises (w : world) (self : NearEarthObjects) (s f : date)
    (resp : response) :
  strptime (start_date self) = Some s ->
  strptime (finish_date self) = Some f ->
  diff_days f s <= 7 ->
  requests_get w (neo_date_range_url self) = Ok resp ->
  status_code resp <> 200 ->
  get_neos_by_date_range w self
  = ([Get (neo_date_range_url self)],
     Raise (ValueError ("Status code: " ++ string_of_Z (status_code resp)
                        ++ ". Look at JSON: <Response ["
                        ++ string_of_Z (status_code resp) ++ "]>")%string)).
Proof.
  intros Hs Hf Hd Hg Hc. rewrite (range_ok_fetches w self s f Hs Hf Hd).
  unfold fetch_and_flatten. rewrite Hg. cbn [bind].
  apply Z.eqb_neq in Hc. rewrite Hc. reflexivity.
Qed.

Lemma bad_status_raises_witness :
  get_neos_by_date_range
    (answering (mkdate 2026 11 4) (mkresponse 403 (Raise LibValueError)))
    (mkNearEarthObjects None "2024-01-01" "2024-01-07")
  = ([Get "https://api.nasa.gov/neo/rest/v1/feed?start_date=2024-01-01&end_date=2024-01-07&api_key=None"],
     Raise (ValueError "Status code: 403. Look at JSON: <Response [403]>")).
Proof.
  apply (bad_status_raises
           (answering (mkdate 2026 11 4) (mkresponse 403 (Raise LibValueError)))
           (mkNearEarthObjects None "2024-01-01" "2024-01-07")
           (mkdate 2024 1 1) (mkdate 2024 1 7)
           (mkresponse 403 (Raise LibValueError))).
  - reflexivity.
  - reflexivity.
  - vm_compute. discriminate.
  - reflexivity.
  - discriminate.
Defined.

(** A 200 response whose JSON object has no [near_earth_objects] key
    ends the call with the [KeyError] of that key. *)
Theorem missing_feed_key_raises (w : world) (self : NearEarthObjects) (s f : date)
    (resp : response) (body : list (string * value)) :
  strptime (start_date self) = Some s ->
  strptime (finish_date self) = Some f ->
  diff_days f s <= 7 ->
  requests_get w (neo_date_range_url self) = Ok resp ->
  status_code resp = 200 ->
  json resp = Ok (VDict body) ->
  lookup "near_earth_objects" body = None ->
  get_neos_by_date_range w self
  = ([Get (neo_date_range_url self)],
     Raise (KeyError (VStr "near_earth_objects"))).
Proof.
  intros Hs Hf Hd Hg Hc Hj Hk. rewrite (range_ok_fetches w self s f Hs Hf Hd).
  unfold fetch_and_flatten. rewrite Hg. cbn [bind]. rewrite Hc, Hj.
  cbn [Z.eqb Pos.eqb negb bind getitem]. rewrite Hk. reflexivity.
Qed.

Lemma missing_feed_key_raises_witness :
  get_neos_by_date_range
    (answering (mkdate 2026 11 4)
       (mkresponse 200 (Ok (VDict [("element_count", VInt 0)]))))
    (mkNearEarthObjects None "2024-01-01" "2024-01-07")
  = ([Get "https://api.nasa.gov/neo/rest/v1/feed?start_date=2024-01-01&end_date=2024-01-07&api_key=None"],
     Raise (KeyError (VStr "near_earth_objects"))).
Proof.
  apply (missing_feed_key_raises
           (answering (mkdate 2026 11 4)
              (mkresponse 200 (Ok (VDict [("element_count", VInt 0)]))))
           (mkNearEarthObjects None "2024-01-01" "2024-01-07")
           (mkdate 2024 1 1) (mkdate 2024 1 7)
           (mkresponse 200 (Ok (VDict [("element_count", VInt 0)])))
           [("element_count", VInt 0)]).
  - reflexivity.
  - reflexivity.
  - vm_compute. discriminate.
  - reflexivity.
  - reflexivity.
  - reflexivity.
  - reflexivity.
Defined.

(** From accepted dates, a 200 response and a feed of the schema whose
    values are booleans, floats and strings, the call fetches once and
    returns the table of the feed's records, one row each, in the order
    of the feed. *)
Theorem good_response_gives_the_table (w : world) (self : NearEarthObjects)
    (s f : date) (resp : response) (body neos : list (string * value)) :
  strptime (start_date self) = Some s ->
  strptime (finish_date self) = Some f ->
  diff_days f s <= 7 ->
  requests_get w (neo_date_range_url self) = Ok resp ->
  status_code resp = 200 ->
  json resp = Ok (VDict body) ->
  lookup "near_earth_objects" body = Some (VDict neos) ->
  schema_payload neos = true ->
  plain_payload neos = true ->
  exists t,
    get_neos_by_date_range w self = ([Get (neo_date_range_url self)], Ok t)
    /\ trows t = map record_row (records neos).
Proof.
  intros Hs Hf Hd Hg Hc Hj Hk Hp _.
  rewrite (range_ok_fetches w self s f Hs Hf Hd).
  destruct (flatten_schema (pandas w) neos Hp) as (t & E & R).
  exists t. split; [|exact R].
  unfold fetch_and_flatten. rewrite Hg. cbn [bind]. rewrite Hc, Hj.
  cbn [Z.eqb Pos.eqb negb bind getitem]. rewrite Hk. cbn [bind].
  rewrite E. reflexivity.
Qed.

Lemma good_response_gives_the_table_witness :
  exists t,
    get_neos_by_date_range
      (answering (mkdate 2026 11 4)
         (mkresponse 200 (Ok (VDict [("element_count", VInt 3);
                                     ("near_earth_objects", VDict feed_example)]))))
      (mkNearEarthObjects None "2024-01-01" "2024-01-02")
    = ([Get (neo_date_range_url (mkNearEarthObjects None "2024-01-01" "2024-01-02"))],
       Ok t)
    /\ trows t = map record_row (records feed_example).
Proof.
  apply (good_response_gives_the_table
           (answering (mkdate 2026 11 4)
              (mkresponse 200 (Ok (VDict [("element_count", VInt 3);
                                          ("near_earth_objects", VDict feed_example)]))))
           (mkNearEarthObjects None "2024-01-01" "2024-01-02")
           (mkdate 2024 1 1) (mkdate 2024 1 2)
           (mkresponse 200 (Ok (VDict [("element_count", VInt 3);
                                       ("near_earth_objects", VDict feed_example)])))
           [("element_count", VInt 3); ("near_earth_objects", VDict feed_example)]
           feed_example).
  - reflexivity.
  - reflexivity.
  - vm_compute. discriminate.
  - reflexivity.
  - reflexivity.
  - reflexivity.
  - reflexivity.
  - reflexivity.
  - reflexivity.
Defined.
End RequestFacts.

(** ** Further properties of the flattener *)

Module TableFacts.
Import Calendar Strptime Py Pandas Neo Script Helpers FlattenFacts.

(** The flattener reads nine keys of an object record; two records that
    agree on them give the same frame, whatever else they hold. *)
Theorem unread_fields_are_ignored (L : lib) (d1 d2 : list (string * value)) :
  (forall k, In k required_fields -> lookup k d1 = lookup k d2) ->
  combined_frame L (VDict d1) = combined_frame L (VDict d2).
Proof.
  intros H. unfold combined_frame.
  rewrite (subdict_ext d1 d2 unnested_general_keys).
  - cbn [getitem].
    rewrite (H "estimated_diameter"), (H "close_approach_data");
      [reflexivity| |]; unfold required_fields; apply in_or_app; right;
      cbn; auto.
  - intros k Hk. apply H. unfold required_fields. apply in_or_app. left.
    exact Hk.
Qed.

Lemma unread_fields_are_ignored_witness :
  combined_frame lib0 (VDict record_with_extra_field)
  = combined_frame lib0 (VDict (record_fields one_link [approach_a])).
Proof.
  apply (unread_fields_are_ignored lib0 record_with_extra_field
           (record_fields one_link [approach_a])).
  intros k Hk. cbn in Hk.
  repeat (destruct Hk as [<-|Hk]; [reflexivity|]). contradiction.
Defined.

Lemma for_each_values L : forall neos1 neos2 t,
  map snd neos1 = map snd neos2 ->
  for_each (flatten_date L) neos1 t = for_each (flatten_date L) neos2 t.
Proof.
  induction neos1 as [|[k1 v1] neos1 IH]; intros [|[k2 v2] neos2] t H;
    try discriminate; [reflexivity|].
  cbn [map snd] in H. injection H as -> H.
  cbn [for_each]. unfold flatten_date at 1 3. cbn [snd].
  destruct (bind (iter v2) (fun l => for_each (flatten_item L) l t));
    [apply IH; exact H|reflexivity].
Qed.

(** The date strings the feed is keyed by are not read: two payloads
    with the same lists under different dates flatten alike. *)
Theorem date_keys_are_ignored (L : lib) (neos1 neos2 : list (string * value)) :
  map snd neos1 = map snd neos2 ->
  flatten L (VDict neos1) = flatten L (VDict neos2).
Proof. intros H. unfold flatten. cbn [items bind]. apply for_each_values, H. Qed.

Lemma date_keys_are_ignored_witness :
  flatten lib0 (VDict [("2024-01-01", VList [record_example one_link [approach_a]]);
                       ("2024-01-02", VList [record_example one_link [approach_b]])])
  = flatten lib0 (VDict [("yesterday", VList [record_example one_link [approach_a]]);
                         ("", VList [record_example one_link [approach_b]])]).
Proof.
  apply (date_keys_are_ignored lib0
           [("2024-01-01", VList [record_example one_link [approach_a]]);
            ("2024-01-02", VList [record_example one_link [approach_b]])]
           [("yesterday", VList [record_example one_link [approach_a]]);
            ("", VList [record_example one_link [approach_b]])]).
  reflexivity.
Defined.

(** A feed in which every date has an empty list gives the empty
    frame: no row and no column. *)
Theorem empty_feed_gives_empty_table (L : lib) (neos : list (string * value)) :
  Forall (fun kv => snd kv = VList []) neos ->
  flatten L (VDict neos) = Ok empty_table.
Proof.
  intros H. unfold flatten. cbn [items bind].
  induction H as [|[k v] neos Hv _ IH]; [reflexivity|].
  cbn [snd] in Hv. subst v. cbn [for_each]. exact IH.
Qed.

Lemma empty_feed_gives_empty_table_witness :
  flatten lib0 (VDict [("2024-01-01", VList []); ("2024-01-02", VList [])])
  = Ok empty_table.
Proof.
  apply (empty_feed_gives_empty_table lib0
           [("2024-01-01", VList []); ("2024-01-02", VList [])]).
  repeat constructor.
Defined.

Lemma for_each_first_failure {A S : Type} (body : S -> A -> result S)
    (l1 l2 : list A) (x : A) (s s1 : S) (e : exn) :
  for_each body l1 s = Ok s1 ->
  body s1 x = Raise e ->
  for_each body (l1 ++ x :: l2) s = Raise e.
Proof.
  revert s. induction l1 as [|y l1 IH]; intros s H1 Hx.
  - cbn [for_each] in H1. injection H1 as ->. cbn [app for_each].
    rewrite Hx. reflexivity.
  - cbn [app for_each] in *. destruct (body s y) as [s'|e']; [|discriminate].
    apply IH; assumption.
Qed.

(** The flattener stops at the first record it cannot handle: when
    the records before it are of the schema, the call ends with the
    exception that this record raises. *)
Lemma flatten_first_failure L before k l1 r l2 after e :
  schema_payload before = true ->
  forallb schema_record l1 = true ->
  (forall t, flatten_item L t r = Raise e) ->
  flatten L (VDict (before ++ (k, VList (l1 ++ r :: l2)) :: after)) = Raise e.
Proof.
  intros Hb Hl Hr. unfold flatten. cbn [items bind].
  destruct (flatten_dates_schema L before empty_table Hb eq_refl)
    as (t0 & E0 & _ & N0).
  apply (for_each_first_failure _ _ _ _ _ t0 _ E0).
  unfold flatten_date. cbn [snd iter bind].
  destruct (flatten_records_schema L l1 t0 Hl N0) as (t1 & E1 & _ & _).
  apply (for_each_first_failure _ _ _ _ _ t1 _ E1). apply Hr.
Qed.

Lemma up_to_size L d :
  schema_up_to_size d = true ->
  exists g s,
    combined_frame L (VDict d)
    = (close_approach_data <- getitem (VDict d) "close_approach_data" ;;
       approach_data_dict <- getitem0 close_approach_data ;;
       unnested_approach_dict <- subdict approach_data_dict unnested_approach_keys ;;
       approach_cells <- cells_at0 unnested_approach_dict ;;
       nested_approach_df <- nested_frame L approach_data_dict ;;
       Ok (concat_columns [g; s; one_row approach_cells; nested_approach_df])).
Proof.
  unfold schema_up_to_size. intros H.
  apply andb_prop in H as [H Hsz]. apply andb_prop in H as [Hl Hg].
  destruct (general_frame_schema d Hl Hg) as (g & Eg & _ & _).
  destruct (lookup "estimated_diameter" d) as [[| | | | | |units]|] eqn:Eu;
    try discriminate.
  destruct (size_frame_schema L units Hsz) as (s & Es & _ & _).
  exists g, s. unfold combined_frame. unfold bind at 1 in Eg.
  unfold bind at 1 2.
  destruct (subdict (VDict d) unnested_general_keys) as [tmp|e']; [|discriminate].
  rewrite Eg. cbn [getitem]. rewrite Eu. cbn [bind]. rewrite Es. reflexivity.
Qed.

(** The call ends with the exception of the first record it cannot
    handle: a record with an empty close-approach list, after records of
    the schema, makes it raise [IndexError]. *)
Theorem empty_approach_list_raises (L : lib) (before after : list (string * value))
    (k : string) (l1 l2 : list value) (d : list (string * value)) :
  schema_payload before = true ->
  forallb schema_record l1 = true ->
  schema_up_to_size d = true ->
  lookup "close_approach_data" d = Some (VList []) ->
  flatten L (VDict (before ++ (k, VList (l1 ++ VDict d :: l2)) :: after))
  = Raise IndexError.
Proof.
  intros Hb Hl Hd Ha. apply flatten_first_failure; [exact Hb|exact Hl|].
  intros t. unfold flatten_item.
  destruct (up_to_size L d Hd) as (g & s & E). rewrite E.
  cbn [getitem]. rewrite Ha. reflexivity.
Qed.

Lemma empty_approach_list_raises_witness :
  flatten lib0
    (VDict ([("2024-01-01", VList [record_example one_link [approach_a]])]
            ++ ("2024-01-02",
                VList ([record_example one_link [approach_b]]
                       ++ VDict (record_fields one_link [])
                       :: [record_example one_link [approach_a]]))
            :: [("2024-01-03", VList [])]))
  = Raise IndexError.
Proof.
  apply (empty_approach_list_raises lib0
           [("2024-01-01", VList [record_example one_link [approach_a]])]
           [("2024-01-03", VList [])] "2024-01-02"
           [record_example one_link [approach_b]]
           [record_example one_link [approach_a]]
           (record_fields one_link [])); reflexivity.
Defined.

Lemma subdict_first_missing d keys k :
  first_missing keys d = Some k ->
  subdict (VDict d) keys = Raise (KeyError (VStr k)).
Proof.
  induction keys as [|k0 keys IH]; [discriminate|].
  cbn [first_missing subdict getitem]. unfold has_key.
  destruct (lookup k0 d) as [v|]; cbn [bind].
  - intros H. rewrite (IH H). reflexivity.
  - intros [= <-]. reflexivity.
Qed.

(** A record that lacks general keys, after records of the schema,
    makes the call raise the [KeyError] of the first general key it
    lacks, in the order of [unnested_general_keys]. *)
Theorem missing_general_key_is_named (L : lib)
    (before after : list (string * value)) (k : string) (l1 l2 : list value)
    (d : list (string * value)) (missing : string) :
  schema_payload before = true ->
  forallb schema_record l1 = true ->
  first_missing unnested_general_keys d = Some missing ->
  flatten L (VDict (before ++ (k, VList (l1 ++ VDict d :: l2)) :: after))
  = Raise (KeyError (VStr missing)).
Proof.
  intros Hb Hl Hm. apply flatten_first_failure; [exact Hb|exact Hl|].
  intros t. unfold flatten_item, combined_frame.
  rewrite (subdict_first_missing d _ _ Hm). reflexivity.
Qed.

Lemma missing_general_key_is_named_witness :
  flatten lib0
    (VDict ([] ++ ("2024-01-02",
                   VList ([record_example one_link [approach_b]]
                          ++ VDict [("links", one_link); ("id", VStr "7");
                                    ("nasa_jpl_url", VStr "u")]
                          :: [record_example one_link [approach_a]]))
            :: []))
  = Raise (KeyError (VStr "name")).
Proof.
  apply (missing_general_key_is_named lib0 [] [] "2024-01-02"
           [record_example one_link [approach_b]]
           [record_example one_link [approach_a]]
           [("links", one_link); ("id", VStr "7"); ("nasa_jpl_url", VStr "u")]
           "name"); reflexivity.
Defined.

(** A record of the schema up to its size table that has no
    [close_approach_data] key makes the call raise the [KeyError] of that
    key. *)
Theorem missing_approach_key_is_named (L : lib)
    (before after : list (string * value)) (k : string) (l1 l2 : list value)
    (d : list (string * value)) :
  schema_payload before = true ->
  forallb schema_record l1 = true ->
  schema_up_to_size d = true ->
  lookup "close_approach_data" d = None ->
  flatten L (VDict (before ++ (k, VList (l1 ++ VDict d :: l2)) :: after))
  = Raise (KeyError (VStr "close_approach_data")).
Proof.
  intros Hb Hl Hd Ha. apply flatten_first_failure; [exact Hb|exact Hl|].
  intros t. unfold flatten_item.
  destruct (up_to_size L d Hd) as (g & s & E). rewrite E.
  cbn [getitem]. rewrite Ha. reflexivity.
Qed.

Lemma missing_approach_key_is_named_witness :
  flatten lib0
    (VDict ([] ++ ("2024-01-02",
                   VList ([] ++ VDict (removelast (record_fields one_link [])) :: []))
            :: []))
  = Raise (KeyError (VStr "close_approach_data")).
Proof.
  apply (missing_approach_key_is_named lib0 [] [] "2024-01-02" [] []
           (removelast (record_fields one_link []))); reflexivity.
Defined.


Lemma map_fst_unit_cells prefix fields :
  map fst (unit_cells prefix fields)
  = map (fun xv => (prefix ++ fst xv)%string) fields.
Proof. unfold unit_cells. rewrite map_map. reflexivity. Qed.

Lemma map_fst_size_cells units : map fst (size_cells units) = size_names units.
Proof.
  unfold size_cells, size_names.
  induction units as [|[k v] units IH]; [reflexivity|].
  cbn [flat_map fst snd]. rewrite map_app, IH. f_equal.
  destruct v; try reflexivity. rewrite map_fst_unit_cells.
  apply map_ext. intros [x v]. cbn [fst append].
  rewrite append_assoc. reflexivity.
Qed.

Lemma map_fst_nested_cells ap a :
  map fst (nested_cells ap a) = nested_names ap a.
Proof.
  unfold nested_cells, nested_names.
  destruct (lookup ap a) as [[| | | | | |units]|]; try reflexivity.
  rewrite map_fst_unit_cells. apply map_ext. intros [u v]. cbn [fst].
  apply append_assoc.
Qed.

Lemma map_fst_general_cells d : map fst (general_cells d) = unnested_general_keys.
Proof.
  unfold general_cells.
  destruct (lookup "links" d) as [[| | | | | |[|[k v] [|]]]|]; reflexivity.
Qed.

(** The columns of a row come in this order: the general keys, the
    size columns, the two approach keys, then the [miss_distance]
    columns before the [relative_velocity] columns, since each nested
    frame is put to the left of the ones before it. *)
Theorem columns_come_in_reading_order_but_nested (L : lib)
    (d units a : list (string * value)) (rest : list value) :
  schema_record (VDict d) = true ->
  lookup "estimated_diameter" d = Some (VDict units) ->
  lookup "close_approach_data" d = Some (VList (VDict a :: rest)) ->
  exists r : row,
    combined_frame L (VDict d) = Ok (one_row r)
    /\ map fst r
       = (["links"; "id"; "name"; "nasa_jpl_url"; "absolute_magnitude_h";
           "is_potentially_hazardous_asteroid"; "is_sentry_object"]
          ++ size_names units
          ++ ["close_approach_date_full"; "orbiting_body"]
          ++ nested_names "miss_distance" a
          ++ nested_names "relative_velocity" a)%list.
Proof.
  intros Hs Hu Ha. exists (record_row (VDict d)).
  split; [exact (combined_frame_schema L (VDict d) Hs)|].
  cbn [record_row]. unfold first_approach, item_row. rewrite Ha, Hu.
  rewrite !map_app, map_fst_general_cells, map_fst_size_cells,
    !map_fst_nested_cells.
  reflexivity.
Qed.

Lemma columns_come_in_reading_order_but_nested_witness :
  exists r : row,
    combined_frame lib0 (VDict (record_fields one_link [approach_a])) = Ok (one_row r)
    /\ map fst r
       = ["links"; "id"; "name"; "nasa_jpl_url"; "absolute_magnitude_h";
          "is_potentially_hazardous_asteroid"; "is_sentry_object";
          "size_kilometers_estimated_diameter_min";
          "size_kilometers_estimated_diameter_max";
          "close_approach_date_full"; "orbiting_body";
          "miss_distance_kilometers";
          "relative_velocity_kilometers_per_second"].
Proof.
  apply (columns_come_in_reading_order_but_nested lib0
           (record_fields one_link [approach_a])
           [("kilometers",
             VDict [("estimated_diameter_min", VFloat (S754_finite false 1 (-3)));
                    ("estimated_diameter_max", VFloat (S754_finite false 1 (-2)))])]
           approach_a_fields []); reflexivity.
Defined.

(** *** The column index of the table *)

Lemma union_keys_absorb ks : forall acc,
  (forall k, In k ks -> mem k acc = true) -> union_keys acc ks = acc.
Proof.
  unfold union_keys. induction ks as [|k ks IH]; intros acc H; [reflexivity|].
  cbn [fold_left]. rewrite (H k (or_introl eq_refl)).
  apply IH. intros k' Hk'. apply H. right. exact Hk'.
Qed.

Lemma union_keys_fresh ks : forall acc,
  nodupb ks = true -> (forall k, In k ks -> mem k acc = false) ->
  union_keys acc ks = (acc ++ ks)%list.
Proof.
  unfold union_keys. induction ks as [|k ks IH]; intros acc Hn H.
  - cbn [fold_left]. rewrite app_nil_r. reflexivity.
  - cbn [nodupb] in Hn. apply andb_prop in Hn as [Hk Hn].
    apply negb_true_iff in Hk.
    cbn [fold_left]. rewrite (H k (or_introl eq_refl)).
    rewrite IH; [rewrite <- app_assoc; reflexivity|exact Hn|].
    intros k' Hk'. rewrite mem_app, (H k' (or_intror Hk')).
    cbn [mem existsb orb]. unfold mem. cbn [existsb].
    destruct (String.eqb k' k) eqn:E; [|reflexivity].
    apply String.eqb_eq in E. subst k'.
    rewrite (mem_In k ks Hk') in Hk. discriminate.
Qed.

Lemma mem_true_In k l : mem k l = true -> In k l.
Proof.
  unfold mem. intros H. apply existsb_exists in H as (x & Hx & E).
  apply String.eqb_eq in E. subst x. exact Hx.
Qed.

Lemma for_each_app {A S : Type} (body : S -> A -> result S) (l1 l2 : list A) :
  forall s,
    for_each body (l1 ++ l2) s = bind (for_each body l1 s) (for_each body l2).
Proof.
  induction l1 as [|x l1 IH]; intros s; [reflexivity|].
  cbn [app for_each]. destruct (body s x); [apply IH|reflexivity].
Qed.

(** When every date maps to a list, the two loops are one loop over
    the records of the payload. *)
Lemma flatten_is_one_loop L neos : forall t,
  all_lists_of (fun _ => true) neos = true ->
  for_each (flatten_date L) neos t = for_each (flatten_item L) (records neos) t.
Proof.
  unfold all_lists_of, records.
  induction neos as [|[k v] neos IH]; intros t H; [reflexivity|].
  cbn [forallb snd] in H. apply andb_prop in H as [Hv H].
  destruct v as [| | | | |l|]; try discriminate.
  cbn [for_each flat_map]. unfold flatten_date at 1, records_of_date at 1.
  cbn [snd iter bind]. rewrite for_each_app.
  destruct (for_each (flatten_item L) l t); cbn [bind]; [apply IH, H|reflexivity].
Qed.

Lemma schema_payload_lists neos :
  schema_payload neos = true -> all_lists_of (fun _ => true) neos = true.
Proof.
  unfold schema_payload, all_lists_of.
  induction neos as [|[k v] neos IH]; [reflexivity|].
  cbn [forallb snd]. intros H. apply andb_prop in H as [Hv H].
  rewrite (IH H), andb_true_r. destruct v; try discriminate.
  apply forallb_forall. intros x _. reflexivity.
Qed.

Lemma same_columns_loop L N l : forall t,
  forallb schema_record l = true ->
  Forall (fun r => map fst (record_row r) = N) l ->
  tcolumns t = N ->
  exists t', for_each (flatten_item L) l t = Ok t' /\ tcolumns t' = N.
Proof.
  induction l as [|r l IH]; intros t Hl HN Ht.
  - exists t. split; [reflexivity|exact Ht].
  - cbn [forallb] in Hl. apply andb_prop in Hl as [Hr Hl].
    apply Forall_cons_iff in HN as [Hr' HN'].
    assert (Hn : nodupb (map fst (record_row r)) = true).
    { destruct r; try discriminate. cbn [schema_record] in Hr.
      apply andb_prop in Hr as [_ Hn]. exact Hn. }
    rewrite Hr', <- Ht in Hn.
    cbn [for_each]. rewrite (flatten_item_schema L t r Hr Hn).
    apply IH; [exact Hl|exact HN'|]. cbn [tcolumns].
    rewrite Hr', Ht. apply union_keys_absorb. intros k Hk. apply mem_In, Hk.
Qed.

(** When all records of a feed of the schema give the same column
    names, these names are the column index of the table and of each of
    its rows: the table is rectangular. *)
Theorem same_columns_give_a_rectangle (L : lib) (neos : list (string * value))
    (N : list string) :
  schema_payload neos = true ->
  records neos <> [] ->
  Forall (fun r => map fst (record_row r) = N) (records neos) ->
  exists t,
    flatten L (VDict neos) = Ok t
    /\ tcolumns t = N
    /\ List.length (trows t) = List.length (records neos)
    /\ Forall (fun rw => map fst rw = N) (trows t).
Proof.
  intros Hp Hne HN.
  destruct (flatten_schema L neos Hp) as (t & E & R).
  exists t. split; [exact E|].
  split; [|split].
  - unfold flatten in E. cbn [items bind] in E.
    rewrite (flatten_is_one_loop L neos _ (schema_payload_lists neos Hp)) in E.
    pose proof (schema_records neos Hp) as Hs.
    destruct (records neos) as [|r l]; [contradiction|].
    cbn [forallb] in Hs. apply andb_prop in Hs as [Hr Hl].
    apply Forall_cons_iff in HN as [Hr' HN'].
    cbn [for_each] in E.
    rewrite (flatten_item_schema L empty_table r Hr eq_refl) in E.
    destruct (same_columns_loop L N l
                (mktable (union_keys (tcolumns empty_table)
                                     (map fst (record_row r)))
                         (trows empty_table ++ [record_row r])) Hl HN')
      as (t' & E' & C'); [|rewrite E' in E; injection E as <-; exact C'].
    cbn [tcolumns empty_table]. rewrite Hr'. apply union_keys_fresh.
    + rewrite <- Hr'. destruct r; try discriminate. cbn [schema_record] in Hr.
      apply andb_prop in Hr as [_ Hn]. exact Hn.
    + reflexivity.
  - rewrite R. apply length_map.
  - rewrite R. apply Forall_forall. intros rw Hrw.
    apply in_map_iff in Hrw as (r & <- & Hr).
    rewrite Forall_forall in HN. exact (HN r Hr).
Qed.

Lemma same_columns_give_a_rectangle_witness :
  exists t,
    flatten lib0 (VDict feed_example) = Ok t
    /\ tcolumns t
       = ["links"; "id"; "name"; "nasa_jpl_url"; "absolute_magnitude_h";
          "is_potentially_hazardous_asteroid"; "is_sentry_object";
          "size_kilometers_estimated_diameter_min";
          "size_kilometers_estimated_diameter_max";
          "close_approach_date_full"; "orbiting_body";
          "miss_distance_kilometers";
          "relative_velocity_kilometers_per_second"]
    /\ List.length (trows t) = List.length (records feed_example)
    /\ Forall (fun rw => map fst rw
                         = ["links"; "id"; "name"; "nasa_jpl_url";
                            "absolute_magnitude_h";
                            "is_potentially_hazardous_asteroid"; "is_sentry_object";
                            "size_kilometers_estimated_diameter_min";
                            "size_kilometers_estimated_diameter_max";
                            "close_approach_date_full"; "orbiting_body";
                            "miss_distance_kilometers";
                            "relative_velocity_kilometers_per_second"])
              (trows t).
Proof.
  apply (same_columns_give_a_rectangle lib0 feed_example).
  - reflexivity.
  - discriminate.
  - repeat constructor.
Defined.

(** *** One row per link *)

Lemma lookup_keys_nodup ls :
  nodupb (map fst ls) = true ->
  map (fun k => lookup k ls) (map fst ls) = map (fun kv => Some (snd kv)) ls.
Proof.
  induction ls as [|[k v] ls IH]; [reflexivity|].
  cbn [map fst snd nodupb lookup]. intros H. apply andb_prop in H as [Hk Hn].
  apply negb_true_iff in Hk. rewrite String.eqb_refl. f_equal.
  rewrite <- (IH Hn). apply map_ext_in. intros k' Hk'.
  destruct (String.eqb k' k) eqn:E; [|reflexivity].
  apply String.eqb_eq in E. subst k'. rewrite (mem_In k _ Hk') in Hk.
  discriminate.
Qed.

Lemma DataFrame_many_links k0 ls rest :
  scalar_values rest = true ->
  nodupb (map fst ls) = true ->
  DataFrame ((k0, VDict ls) :: rest)
  = Ok (mkframe (List.length ls)
          ((k0, map (fun kv => Some (snd kv)) ls)
           :: map (fun kv => (fst kv, repeat (Some (snd kv)) (List.length ls)))
                  rest)).
Proof.
  intros S Hn. destruct (scalars_shape rest S) as (A & B & C & D).
  unfold DataFrame.
  cbn [map snd fst flat_map list_len app existsb is_dict orb fold_left dict_keys].
  rewrite A, C, D.
  rewrite (union_keys_fresh (map fst ls) [] Hn (fun _ _ => eq_refl)).
  cbn [app column_of]. rewrite (lookup_keys_nodup ls Hn), length_map.
  reflexivity.
Qed.

Lemma concat_columns_names fs :
  map fst (columns (concat_columns fs))
  = flat_map (fun f => map fst (columns f)) fs.
Proof.
  unfold concat_columns. cbn [columns].
  generalize (fold_right Nat.max 0%nat (map nrows fs)). intros n.
  induction fs as [|f fs IH]; [reflexivity|].
  cbn [flat_map]. rewrite map_app, IH, map_map. reflexivity.
Qed.

Lemma thin_names f : map fst (columns f) = map fst (first_row f).
Proof. unfold first_row. rewrite map_map. reflexivity. Qed.

Lemma nth_seq_all (c : list cell) :
  map (fun i => nth i c None) (seq 0 (List.length c)) = c.
Proof.
  induction c as [|x c IH]; [reflexivity|].
  cbn [List.length seq map nth]. f_equal.
  rewrite <- seq_shift, map_map. exact IH.
Qed.

(** A record that is of the schema but for its links, with [n >= 1]
    links under distinct keys, the links being booleans, floats or
    strings, adds [n] rows to a table of such values, one per link: the
    [links] column of the new rows holds the links in their order. *)
Theorem each_link_makes_a_row (L : lib) (t : table)
    (d ls : list (string * value)) :
  schema_but_links d = true ->
  lookup "links" d = Some (VDict ls) ->
  nodupb (map fst ls) = true ->
  ls <> [] ->
  forallb (fun kv => plain (snd kv)) ls = true ->
  nodupb (tcolumns t) = true ->
  forallb plain_row (trows t) = true ->
  exists new_rows : list row,
    flatten_item L t (VDict d)
    = Ok (mktable (union_keys (tcolumns t) (map fst (record_row (VDict d))))
                  (trows t ++ new_rows))
    /\ List.length new_rows = List.length ls
    /\ map (row_get "links") new_rows = map (fun kv => Some (snd kv)) ls.
Proof.
  unfold schema_but_links. intros H Hlk Hn Hne _ Ht _.
  apply andb_prop in H as [H Hnames]. apply andb_prop in H as [H Ha].
  apply andb_prop in H as [Hg Hsz].
  destruct (subdict_scalars d _ Hg) as (rest & E & S & F & M).
  unfold flatten_item, combined_frame.
  change unnested_general_keys with ("links" :: tl unnested_general_keys) at 1.
  cbn [subdict getitem]. rewrite Hlk. cbn [bind]. rewrite E. cbn [bind].
  rewrite (DataFrame_many_links "links" ls rest S Hn). cbn [bind].
  destruct (lookup "estimated_diameter" d) as [[| | | | | |units]|] eqn:Eu;
    try discriminate.
  cbn [bind].
  destruct (size_frame_schema L units Hsz) as (s & Es & Ts & Rs).
  rewrite Es. cbn [bind].
  destruct (lookup "close_approach_data" d)
    as [[| | | | |[|[| | | | | |a] l]|]|] eqn:Ec; try discriminate.
  apply andb_prop in Ha as [Hap Hnest].
  cbn [bind getitem0].
  pose proof (approach_schema a Hap) as Ea. unfold bind at 1 in Ea.
  unfold bind at 1 2.
  destruct (subdict (VDict a) unnested_approach_keys) as [tmp2|e]; [|discriminate].
  rewrite Ea. rewrite (nested_frame_schema L a Hnest). cbn [bind].
  set (g := mkframe (List.length ls)
              (("links", map (fun kv => Some (snd kv)) ls)
               :: map (fun kv => (fst kv, repeat (Some (snd kv)) (List.length ls)))
                      rest)).
  set (fs := [g; s; one_row (approach_cells a);
              one_row (nested_cells "miss_distance" a
                       ++ nested_cells "relative_velocity" a)%list]).
  assert (Hrows : nrows (concat_columns fs) = List.length ls).
  { unfold concat_columns, fs. cbn [nrows map fold_right one_row g].
    destruct Ts as [Ts _]. destruct ls; [contradiction|].
    cbn [List.length] in *. lia. }
  assert (Hcols : map fst (columns (concat_columns fs))
                  = map fst (record_row (VDict d))).
  { rewrite concat_columns_names. unfold fs. cbn [flat_map].
    rewrite (thin_names s), Rs, !thin_names, !first_row_one_row.
    cbn [record_row]. unfold item_row, first_approach. rewrite Eu, Ec.
    rewrite !map_app, map_fst_general_cells, app_nil_r. f_equal.
    rewrite <- thin_names. unfold g. cbn [columns map fst].
    rewrite map_map. cbn [fst].
    change unnested_general_keys with ("links" :: tl unnested_general_keys).
    f_equal. rewrite <- F. reflexivity. }
  unfold concat_rows. rewrite Ht, Hcols, Hnames. cbn [andb].
  exists (frame_rows (concat_columns fs)). split; [reflexivity|].
  unfold frame_rows. rewrite length_map, length_seq, Hrows.
  split; [reflexivity|].
  rewrite map_map.
  transitivity (map (fun i => nth i (map (fun kv : string * value =>
                                            Some (snd kv)) ls) None)
                    (seq 0 (List.length ls))).
  - apply map_ext. intros i. unfold concat_columns. cbn [columns].
    change (fold_right Nat.max 0%nat (map nrows fs))
      with (nrows (concat_columns fs)).
    rewrite Hrows. unfold fs, g.
    cbn [flat_map columns map app fst snd row_get].
    rewrite String.eqb_refl. unfold pad.
    rewrite length_map, Nat.sub_diag. cbn [repeat]. rewrite app_nil_r.
    reflexivity.
  - rewrite <- (length_map (fun kv : string * value => Some (snd kv)) ls) at 1.
    apply nth_seq_all.
Qed.

Lemma each_link_makes_a_row_witness :
  exists new_rows : list row,
    flatten_item lib0 empty_table (VDict (record_fields three_links [approach_a]))
    = Ok (mktable
            (union_keys []
               (map fst (record_row (VDict (record_fields three_links [approach_a])))))
            ([] ++ new_rows))
    /\ List.length new_rows = 3%nat
    /\ map (row_get "links") new_rows
       = [Some (VStr "http://x/1"); Some (VStr "http://x/2");
          Some (VStr "http://x/0")].
Proof.
  apply (each_link_makes_a_row lib0 empty_table
           (record_fields three_links [approach_a])
           [("self", VStr "http://x/1"); ("next", VStr "http://x/2");
            ("prev", VStr "http://x/0")]).
  - reflexivity.
  - reflexivity.
  - reflexivity.
  - discriminate.
  - reflexivity.
  - reflexivity.
  - reflexivity.
Defined.

(** *** Missing links, and the column index *)

(** A record of the schema whose [links] mapping is empty still gives
    one row, but the general frame has no row to give: every general
    column of the row, [id] and [name] included, is [NaN]. *)
Theorem no_link_loses_the_general_fields (L : lib) (d : list (string * value)) :
  schema_record (VDict d) = true ->
  lookup "links" d = Some (VDict []) ->
  exists r : row,
    combined_frame L (VDict d) = Ok (one_row r)
    /\ forall k, In k unnested_general_keys -> row_get k r = None.
Proof.
  intros Hs Hl. exists (record_row (VDict d)).
  split; [exact (combined_frame_schema L (VDict d) Hs)|].
  intros k Hk. apply row_get_In.
  - cbn [schema_record] in Hs. apply andb_prop in Hs as [_ Hn]. exact Hn.
  - cbn [record_row]. unfold item_row, general_cells. rewrite Hl.
    apply in_or_app. left. apply in_map_iff. exists k. split; [reflexivity|exact Hk].
Qed.

Lemma no_link_loses_the_general_fields_witness :
  exists r : row,
    combined_frame lib0 (VDict (record_fields (VDict []) [approach_a]))
    = Ok (one_row r)
    /\ forall k, In k unnested_general_keys -> row_get k r = None.
Proof.
  exact (no_link_loses_the_general_fields lib0
           (record_fields (VDict []) [approach_a]) eq_refl eq_refl).
Defined.

Lemma union_keys_incl ks : forall acc k,
  In k acc \/ In k ks -> In k (union_keys acc ks).
Proof.
  unfold union_keys. induction ks as [|k0 ks IH]; intros acc k H.
  - cbn [fold_left]. destruct H as [H|[]]. exact H.
  - cbn [fold_left]. apply IH.
    destruct H as [H|[<-|H]]; [| |right; exact H].
    + left. destruct (mem k0 acc); [exact H|apply in_or_app; left; exact H].
    + left. destruct (mem k0 acc) eqn:E; [apply mem_true_In, E|].
      apply in_or_app. right. left. reflexivity.
Qed.

Lemma covered_loop L l : forall t,
  forallb schema_record l = true ->
  nodupb (tcolumns t) = true ->
  Forall (fun rw => incl (map fst rw) (tcolumns t)) (trows t) ->
  exists t', for_each (flatten_item L) l t = Ok t'
             /\ nodupb (tcolumns t') = true
             /\ Forall (fun rw => incl (map fst rw) (tcolumns t')) (trows t').
Proof.
  induction l as [|r l IH]; intros t Hl Ht Hc.
  - exists t. auto.
  - cbn [forallb] in Hl. apply andb_prop in Hl as [Hr Hl].
    cbn [for_each]. rewrite (flatten_item_schema L t r Hr Ht).
    apply IH; [exact Hl|apply nodupb_union, Ht|]. cbn [tcolumns trows].
    apply Forall_app. split.
    + apply Forall_forall. intros rw Hrw k Hk. apply union_keys_incl. left.
      rewrite Forall_forall in Hc. exact (Hc rw Hrw k Hk).
    + constructor; [|constructor]. intros k Hk. apply union_keys_incl.
      right. exact Hk.
Qed.

(** The column index of the table of a feed of the schema names no
    column twice and has a column for every cell of every row. *)
Theorem column_index_covers_the_rows (L : lib) (neos : list (string * value)) :
  schema_payload neos = true ->
  exists t,
    flatten L (VDict neos) = Ok t
    /\ nodupb (tcolumns t) = true
    /\ Forall (fun rw => incl (map fst rw) (tcolumns t)) (trows t).
Proof.
  intros Hp. unfold flatten. cbn [items bind].
  rewrite (flatten_is_one_loop L neos _ (schema_payload_lists neos Hp)).
  apply covered_loop; [exact (schema_records neos Hp)|reflexivity|constructor].
Qed.

Lemma column_index_covers_the_rows_witness :
  exists t,
    flatten lib0
      (VDict [("2024-01-01", VList [record_example one_link [approach_a];
                                    record_in_miles])])
    = Ok t
    /\ nodupb (tcolumns t) = true
    /\ Forall (fun rw => incl (map fst rw) (tcolumns t)) (trows t).
Proof.
  exact (column_index_covers_the_rows lib0
           [("2024-01-01", VList [record_example one_link [approach_a];
                                  record_in_miles])] eq_refl).
Defined.

(** A record with other units than the rows before it adds its
    columns after theirs. *)
Example new_units_add_columns_at_the_end :
  exists t,
    flatten lib0
      (VDict [("2024-01-01", VList [record_example one_link [approach_a];
                                    record_in_miles])])
    = Ok t
    /\ tcolumns t
       = ["links"; "id"; "name"; "nasa_jpl_url"; "absolute_magnitude_h";
          "is_potentially_hazardous_asteroid"; "is_sentry_object";
          "size_kilometers_estimated_diameter_min";
          "size_kilometers_estimated_diameter_max";
          "close_approach_date_full"; "orbiting_body";
          "miss_distance_kilometers";
          "relative_velocity_kilometers_per_second";
          "size_miles_estimated_diameter_min"].
Proof. eexists. split; reflexivity. Qed.
End TableFacts.

(** ** The date arithmetic the method leans on *)

Module DateFacts.
Import Calendar Strptime Helpers CalendarFacts StrptimeFacts.

(** Every ordinal from 1 to [_MAXORDINAL] is the ordinal of the date
    [fromordinal] makes of it, and that date is one the constructor
    accepts. *)
Theorem date_of_ordinal_round_trip (n : Z) :
  1 <= n <= MAXORDINAL ->
  valid (fromordinal n) = true /\ toordinal (fromordinal n) = n.
Proof.
  intros H. split; [apply fromordinal_valid, H|apply toordinal_fromordinal].
Qed.

Lemma date_of_ordinal_round_trip_witness :
  valid (fromordinal 738945) = true /\ toordinal (fromordinal 738945) = 738945.
Proof.
  apply (date_of_ordinal_round_trip 738945). vm_compute. split; discriminate.
Defined.

(** Every date the constructor accepts has an ordinal from 1 to
    [_MAXORDINAL], from which [fromordinal] gives the date back. *)
Theorem ordinal_of_date_round_trip (dt : date) :
  valid dt = true ->
  1 <= toordinal dt <= MAXORDINAL /\ fromordinal (toordinal dt) = dt.
Proof.
  intros V. split; [exact (ymd2ord_bounds _ _ _ V)|apply fromordinal_toordinal, V].
Qed.

Lemma ordinal_of_date_round_trip_witness :
  1 <= toordinal (mkdate 2024 2 29) <= MAXORDINAL
  /\ fromordinal (toordinal (mkdate 2024 2 29)) = mkdate 2024 2 29.
Proof. apply (ordinal_of_date_round_trip (mkdate 2024 2 29)). reflexivity. Defined.

(** What [strptime] reads is a date the constructor accepts, and the
    ten characters [strftime] prints for it are read back as the same
    date, also when the string read had a month or a day on one digit.
    The year is taken from 1000 on, where every platform prints it on
    four digits. *)
Theorem printed_date_is_read_back (s : string) (dt : date) :
  strptime s = Some dt ->
  1000 <= year dt ->
  valid dt = true
  /\ String.length (strftime dt) = 10%nat
  /\ strptime (strftime dt) = Some dt.
Proof.
  intros H Hy. pose proof (strptime_valid s dt H) as V.
  split; [exact V|]. split; [|apply strptime_strftime; assumption].
  destruct dt as [y m d]. unfold valid in V. cbn [year month day] in *.
  destruct (valid_bounds y m d V) as (By & _ & _).
  unfold strftime. cbn [year month day].
  rewrite (year_digits_pad4 y ltac:(lia)). reflexivity.
Qed.

Lemma printed_date_is_read_back_witness :
  valid (mkdate 2024 3 5) = true
  /\ String.length (strftime (mkdate 2024 3 5)) = 10%nat
  /\ strptime (strftime (mkdate 2024 3 5)) = Some (mkdate 2024 3 5).
Proof.
  apply (printed_date_is_read_back "2024-3-5" (mkdate 2024 3 5));
    [reflexivity|vm_compute; discriminate].
Defined.

(** When adding days to a date gives a date, that date is one the
    constructor accepts and lies that many days after the first; the
    sum had to stay within the calendar. *)
Theorem added_days_are_the_difference (dt later : date) (k : Z) :
  valid dt = true ->
  add_days dt k = Some later ->
  valid later = true
  /\ diff_days later dt = k
  /\ 1 <= toordinal dt + k <= MAXORDINAL.
Proof.
  intros V. unfold add_days.
  destruct (0 <? toordinal dt + k) eqn:A; [|discriminate].
  destruct (toordinal dt + k <=? MAXORDINAL) eqn:B; [|discriminate].
  apply Z.ltb_lt in A. apply Z.leb_le in B. cbn [andb]. intros [= <-].
  split; [apply fromordinal_valid; lia|].
  split; [|lia]. unfold diff_days. rewrite toordinal_fromordinal. lia.
Qed.

Lemma added_days_are_the_difference_witness :
  valid (mkdate 2024 3 3) = true
  /\ diff_days (mkdate 2024 3 3) (mkdate 2024 2 25) = 7
  /\ 1 <= toordinal (mkdate 2024 2 25) + 7 <= MAXORDINAL.
Proof.
  apply (added_days_are_the_difference (mkdate 2024 2 25) (mkdate 2024 3 3) 7);
    reflexivity.
Defined.

End DateFacts.

(** ** The rows of the objects *)

Module RowFacts.
Import Calendar Strptime Py Pandas Neo Helpers FlattenFacts TableFacts.








(** *** The first close approach *)
























End RowFacts.
